(** * XrayScanClient: submitting a dependency graph to Xray and polling for the result

    A shallow embedding of [src/Xray/XrayScanClient.ts].  The class has two
    methods that matter, [graph] and [getScanGraphResults]; both are
    asynchronous, talk to three collaborators (the HTTP client, the
    cancellation callback and the progress sink) and may throw.  The model is a
    state-and-exception monad over a scripted world: the world says what the
    n-th call of [checkCanceled] and the n-th call of [doAuthRequest] do, the
    state counts those calls and records every observable effect in a trace. *)

From Stdlib Require Import ZArith List String Ascii Bool Lia DecimalString.
Import ListNotations.

Local Open Scope string_scope.
Local Open Scope list_scope.

(** ** JavaScript values *)

(** The values that flow through the client come from [any]-typed places (the
    body of a response, the reason of a rejected promise, the request handed in
    by the caller), so they are modelled dynamically.  Numbers are the integers:
    status codes and percentages are all this file computes with. *)
#[warnings="-register-all"]
Inductive JsValue : Type :=
| JsUndefined
| JsNull
| JsBool (b : bool)
| JsNum (z : Z)
| JsStr (s : string)
| JsObj (props : list (string * JsValue))
| JsArr (items : list JsValue).

(** ToBoolean, as used by [if (v)] and [!v]. *)
Definition truthy (v : JsValue) : bool :=
  match v with
  | JsUndefined | JsNull => false
  | JsBool b => b
  | JsNum z => negb (z =? 0)%Z
  | JsStr s => negb (s =? EmptyString)%string
  | JsObj _ | JsArr _ => true
  end.

Definition nullish (v : JsValue) : bool :=
  match v with
  | JsUndefined | JsNull => true
  | _ => false
  end.

(** [v === n] for a number literal [n]. *)
Definition is_number (v : JsValue) (n : Z) : bool :=
  match v with
  | JsNum z => (z =? n)%Z
  | _ => false
  end.

Fixpoint own_property (name : string) (props : list (string * JsValue)) : JsValue :=
  match props with
  | [] => JsUndefined
  | (k, v) :: rest => if (k =? name)%string then v else own_property name rest
  end.

(** [v.name] on a value that is neither [undefined] nor [null].  None of the
    names read in this file ([response], [status], [message], [scan_id],
    [progress_percentage]) is inherited by a primitive or an array. *)
Definition prop (v : JsValue) (name : string) : JsValue :=
  match v with
  | JsObj props => own_property name props
  | _ => JsUndefined
  end.

(** [v?.name] *)
Definition optional_member (v : JsValue) (name : string) : JsValue :=
  if nullish v then JsUndefined else prop v name.

(** ToString, as used by [+] on strings and by template literals. *)
Fixpoint to_string (v : JsValue) : string :=
  match v with
  | JsUndefined => "undefined"
  | JsNull => "null"
  | JsBool true => "true"
  | JsBool false => "false"
  | JsNum z => NilZero.string_of_int (Z.to_int z)
  | JsStr s => s
  | JsObj _ => "[object Object]"
  | JsArr items =>
      String.concat ","
        (map (fun x => match x with
                       | JsUndefined | JsNull => EmptyString
                       | _ => to_string x
                       end) items)
  end.

(** A [string | undefined] argument as a value. *)
Definition of_optional (s : option string) : JsValue :=
  match s with
  | Some x => JsStr x
  | None => JsUndefined
  end.

(** [haystack.includes(needle)] *)
Fixpoint includes (needle haystack : string) : bool :=
  match haystack with
  | EmptyString => prefix needle haystack
  | String _ rest => prefix needle haystack || includes needle rest
  end.

(** ** Exceptions, effects and the world *)

Inductive Exn : Type :=
| Error (message : string)                  (* [new Error(message)], built in this file *)
| TypeError (base : JsValue) (name : string) (* reading [name] of [undefined] or [null] *)
| Thrown (v : JsValue).                      (* whatever a collaborator threw or rejected with *)

Inductive Completion (A : Type) : Type :=
| Normal (a : A)
| Throw (e : Exn).
Arguments Normal {A} a.
Arguments Throw {A} e.

(** The lines handed to [logger.debug], by template and arguments. *)
Inductive LogLine : Type :=
| SendingPost                       (* 'Sending POST scan/graph request...' *)
| Data (request : JsValue)          (* 'data: ' + JSON.stringify(request) *)
| SendingGet (url : string)         (* `Sending GET ${scanGraphUrl} request...` *)
| ReceivedStatus (status : JsValue). (* `Received status '${receivedStatus}' from Xray.` *)

Inductive Event : Type :=
| EvDebug (line : LogLine)
| EvCheckCanceled
| EvRequest (method url : string) (data : JsValue)
| EvSetPercentage (percentage : JsValue)
| EvDelay (ms : Z).

Inductive Settled : Type :=
| Resolve (response : JsValue)
| Reject (reason : JsValue).

(** What one call of [doAuthRequest] does: the statuses it hands to the
    [validateStatus] callback of the request, in order, and how its promise
    settles. *)
Record Outcome : Type := {
  validated : list Z;
  settled : Settled
}.

Record World : Type := {
  on_checkCanceled : nat -> option JsValue; (* [Some e]: the n-th call throws [e] *)
  on_doAuthRequest : nat -> Outcome
}.

Record State : Type := {
  checks : nat;          (* calls of [checkCanceled] so far *)
  sent : nat;            (* calls of [doAuthRequest] so far *)
  trace : list Event     (* everything observable, oldest first *)
}.

Definition initial : State := {| checks := 0; sent := 0; trace := [] |}.

Definition M (A : Type) : Type := State -> Completion A * State.

Definition ret {A} (a : A) : M A := fun s => (Normal a, s).

Definition throw {A} (e : Exn) : M A := fun s => (Throw e, s).

Definition bind {A B} (m : M A) (k : A -> M B) : M B :=
  fun s =>
    match m s with
    | (Normal a, s') => k a s'
    | (Throw e, s') => (Throw e, s')
    end.

(** [try { body } finally { cleanup }] for a cleanup that may itself throw. *)
Definition finally {A} (body : M A) (cleanup : M unit) : M A :=
  fun s =>
    let (r, s') := body s in
    match cleanup s' with
    | (Normal _, s'') => (r, s'')
    | (Throw e, s'') => (Throw e, s'')
    end.

Declare Scope js_scope.
Delimit Scope js_scope with js.
Notation "x <- m ;; k" := (bind m (fun x => k))
  (at level 61, m at next level, right associativity) : js_scope.
Notation "m ;; k" := (bind m (fun _ => k))
  (at level 61, right associativity) : js_scope.
Local Open Scope js_scope.

Definition emit (e : Event) : M unit :=
  fun s => (Normal tt, {| checks := checks s; sent := sent s; trace := trace s ++ [e] |}).

(** [v.name], which throws on [undefined] and [null]. *)
Definition member (v : JsValue) (name : string) : M JsValue :=
  if nullish v then throw (TypeError v name) else ret (prop v name).

Record IRequestParams : Type := {
  url : string;
  method : string;
  data : JsValue;
  validateStatus : option (Z -> bool)
}.

Section Client.

Variable world : World.

(** [checkCanceled()] *)
Definition checkCanceled : M unit :=
  fun s =>
    let s' := {| checks := S (checks s); sent := sent s;
                 trace := trace s ++ [EvCheckCanceled] |} in
    match on_checkCanceled world (checks s) with
    | None => (Normal tt, s')
    | Some e => (Throw (Thrown e), s')
    end.

(** [this.httpClient.doAuthRequest(requestParams)], up to the point where its
    promise settles. *)
Definition doAuthRequest (requestParams : IRequestParams) : M Outcome :=
  fun s =>
    (Normal (on_doAuthRequest world (sent s)),
     {| checks := checks s; sent := S (sent s);
        trace := trace s ++ [EvRequest (method requestParams) (url requestParams)
                                       (data requestParams)] |}).

Definition debug (line : LogLine) : M unit := emit (EvDebug line).

(** [progress.setPercentage(percentage)] *)
Definition setPercentage (percentage : JsValue) : M unit :=
  emit (EvSetPercentage percentage).

(** [await this.delay(sleepIntervalMilliseconds)] *)
Definition delay (sleepIntervalMilliseconds : Z) : M unit :=
  emit (EvDelay sleepIntervalMilliseconds).

(** [await promise]: the value of a resolved promise, the reason of a
    rejected one thrown. *)
Definition await (o : Outcome) : M JsValue :=
  match settled o with
  | Resolve response => ret response
  | Reject reason => throw (Thrown reason)
  end.

Definition scanGraphEndpoint : string := "api/v1/scan/graph".
Definition SLEEP_INTERVAL_MILLISECONDS : Z := 5000.
Definition MAX_ATTEMPTS : nat := 60.

(** The [validateStatus] callback of a poll request: what it answers... *)
Definition accepted (status : Z) : bool :=
  (status =? 200)%Z || (status =? 202)%Z.

(** ...and what it leaves in [receivedStatus], which starts out [undefined]
    in every iteration and is assigned at each call. *)
Definition captured (statuses : list Z) : JsValue :=
  fold_left (fun _ status => JsNum status) statuses JsUndefined.

(** The locals [response], [receivedStatus] and [message] once
    [await ...doAuthRequest(requestParams).catch(...)] is over.  A resolved
    promise hands its value on; a rejected one runs the handler, which
    overwrites [receivedStatus], sets [message] and yields [undefined]. *)
Definition observe (o : Outcome) : Exn + (JsValue * JsValue * JsValue) :=
  match settled o with
  | Resolve response => inr (response, captured (validated o), JsUndefined)
  | Reject reason =>
      if nullish reason then inl (TypeError reason "response")
      else inr (JsUndefined,
                optional_member (prop reason "response") "status",
                optional_member reason "message")
  end.

Definition lift {A} (r : Exn + A) : M A :=
  match r with
  | inl e => throw e
  | inr a => ret a
  end.

(** One iteration of the [for] loop of [getScanGraphResults]: [Some v] when
    the body executes [return v], [None] when it reaches its end. *)
Definition attempt (scanGraphUrl : string) (sleepIntervalMilliseconds : Z)
  : M (option JsValue) :=
  checkCanceled ;;
  debug (SendingGet scanGraphUrl) ;;
  o <- doAuthRequest {| url := scanGraphUrl; method := "GET"; data := JsUndefined;
                        validateStatus := Some accepted |} ;;
  locals <- lift (observe o) ;;
  let '(response, receivedStatus, message) := locals in
  debug (ReceivedStatus receivedStatus) ;;
  if is_number receivedStatus 200 then ret (Some response)
  else
    (if is_number receivedStatus 202 then
       progress_percentage <- member response "progress_percentage" ;;
       if truthy progress_percentage then setPercentage progress_percentage
       else ret tt
     else
       if truthy receivedStatus then
         throw (Error ("Received unexpected status '" ++ to_string receivedStatus
                         ++ "' from Xray: " ++ to_string message))
       else
         throw (Error ("Received response from Xray: " ++ to_string message))) ;;
    delay sleepIntervalMilliseconds ;;
    ret None.

(** [for (let i = 0; i < MAX_ATTEMPTS; i++) { ... } throw new Error(...)],
    by the number of iterations still to run. *)
Fixpoint poll (attempts : nat) (scanGraphUrl : string) (sleepIntervalMilliseconds : Z)
  : M JsValue :=
  match attempts with
  | O => throw (Error "Xray get scan graph exceeded the timeout.")
  | S attempts' =>
      r <- attempt scanGraphUrl sleepIntervalMilliseconds ;;
      match r with
      | Some response => ret response
      | None => poll attempts' scanGraphUrl sleepIntervalMilliseconds
      end
  end.

Definition scanGraphUrl (scanId : JsValue) (includeVulnerabilities : bool) : string :=
  scanGraphEndpoint ++ "/" ++ to_string scanId ++ "?include_licenses=true"
    ++ "&include_vulnerabilities=" ++ to_string (JsBool includeVulnerabilities).

Definition getScanGraphResults (scanId : JsValue) (includeVulnerabilities : bool)
           (sleepIntervalMilliseconds : Z) : M JsValue :=
  poll MAX_ATTEMPTS (scanGraphUrl scanId includeVulnerabilities)
       sleepIntervalMilliseconds.

(** [projectKey !== undefined && projectKey.length > 0] *)
Definition projectProvided (projectKey : option string) : bool :=
  match projectKey with
  | None => false
  | Some key => (0 <? String.length key)%nat
  end.

(** The [url] of the submit request:
    [scanGraphEndpoint + (projectProvided ? `?project=${projectKey}` : '')] *)
Definition submitUrl (projectKey : option string) : string :=
  scanGraphEndpoint ++
    (if projectProvided projectKey
     then "?project=" ++ to_string (of_optional projectKey)
     else EmptyString).

(** A parameter default:
    [sleepIntervalMilliseconds: number = XrayScanClient.SLEEP_INTERVAL_MILLISECONDS] *)
Definition or_default (sleepIntervalMilliseconds : option Z) : Z :=
  match sleepIntervalMilliseconds with
  | Some ms => ms
  | None => SLEEP_INTERVAL_MILLISECONDS
  end.

(** [graph(request, progress, checkCanceled, projectKey, sleepIntervalMilliseconds)] *)
Definition graph (request : JsValue) (projectKey : option string)
           (sleepIntervalMilliseconds : option Z) : M JsValue :=
  finally
    (if negb (truthy request) then ret (JsObj [])
     else
       debug SendingPost ;;
       let requestParams := {| url := submitUrl projectKey; method := "POST";
                               data := request; validateStatus := None |} in
       debug (Data request) ;;
       checkCanceled ;;
       o <- doAuthRequest requestParams ;;
       response <- await o ;;
       scan_id <- member response "scan_id" ;;
       getScanGraphResults scan_id (negb (projectProvided projectKey))
                           (or_default sleepIntervalMilliseconds))
    (setPercentage (JsNum 100)).

End Client.

(** ** The vocabulary of the statements *)

(** A poll that keeps the loop going: the promise resolves with something that
    can be read from, and the last status seen by [validateStatus] is 202. *)
Definition in_progress (o : Outcome) : bool :=
  match settled o with
  | Resolve response => negb (nullish response) && is_number (captured (validated o)) 202
  | Reject _ => false
  end.

(** The iteration that makes check number [c] and request number [n] goes
    through to its [delay]. *)
Definition still_running (w : World) (c n : nat) : Prop :=
  on_checkCanceled w c = None /\ in_progress (on_doAuthRequest w n) = true.

Definition resolved (o : Outcome) : JsValue :=
  match settled o with
  | Resolve response => response
  | Reject _ => JsUndefined
  end.

(** The events of an iteration up to and including its request. *)
Definition request_events (url : string) : list Event :=
  [EvCheckCanceled; EvDebug (SendingGet url); EvRequest "GET" url JsUndefined].

(** What a 202 response makes the progress sink see. *)
Definition progress_update (response : JsValue) : list Event :=
  if truthy (prop response "progress_percentage")
  then [EvSetPercentage (prop response "progress_percentage")]
  else [].

(** The events of the in-progress iteration that makes request number [n]. *)
Definition iteration_events (w : World) (url : string) (ms : Z) (n : nat) : list Event :=
  request_events url ++ [EvDebug (ReceivedStatus (JsNum 202))]
    ++ progress_update (resolved (on_doAuthRequest w n)) ++ [EvDelay ms].

(** The events of [graph] up to and including the submit request. *)
Definition submit_events (request : JsValue) (projectKey : option string) : list Event :=
  [EvDebug SendingPost; EvDebug (Data request); EvCheckCanceled;
   EvRequest "POST" (submitUrl projectKey) request].

(** [reason.response?.status], the status a rejection reports. *)
Definition rejected_status (reason : JsValue) : JsValue :=
  optional_member (prop reason "response") "status".

(** Every request an iteration of the loop makes is a GET of the poll URL. *)
Definition polls_only (url : string) (e : Event) : Prop :=
  match e with
  | EvRequest m u _ => m = "GET" /\ u = url
  | _ => True
  end.

(** The requests of a whole call: the submit, then polls of one URL. *)
Definition submit_or_poll (projectKey : option string) (e : Event) : Prop :=
  match e with
  | EvRequest m u _ =>
      (m = "POST" /\ u = submitUrl projectKey) \/
      (m = "GET" /\ exists scanId : JsValue,
                      u = scanGraphUrl scanId (negb (projectProvided projectKey)))
  | _ => True
  end.

(** ** Three sentences of the specification, read to the letter *)

(** [name in v], for the plain objects of a response body. *)
Definition carries (v : JsValue) (name : string) : bool :=
  match v with
  | JsObj props => existsb (fun kv => (fst kv =? name)%string) props
  | _ => false
  end.

(** C4 read to the letter: under status 202 a [progress_percentage] field,
    whatever its value, reaches the sink before the delay, and the sink is left
    alone when there is no such field. *)
Definition forwards_every_percentage : Prop :=
  forall (w : World) (url : string) (ms : Z) (s : State) (response : JsValue),
    on_checkCanceled w (checks s) = None ->
    settled (on_doAuthRequest w (sent s)) = Resolve response ->
    captured (validated (on_doAuthRequest w (sent s))) = JsNum 202 ->
    nullish response = false ->
    trace (snd (attempt w url ms s)) =
      trace s ++ request_events url ++ [EvDebug (ReceivedStatus (JsNum 202))]
        ++ (if carries response "progress_percentage"
            then [EvSetPercentage (prop response "progress_percentage")]
            else [])
        ++ [EvDelay ms].

(** C5 read to the letter, with a request that is absent ([undefined], [null])
    or empty ([{}]). *)
Definition absent_or_empty (request : JsValue) : Prop :=
  request = JsUndefined \/ request = JsNull \/ request = JsObj [].

Definition empty_request_skips_network : Prop :=
  forall (w : World) (request : JsValue) (projectKey : option string) (ms : option Z),
    absent_or_empty request ->
    graph w request projectKey ms initial =
      (Normal (JsObj []),
       {| checks := 0; sent := 0; trace := [EvSetPercentage (JsNum 100)] |}).

(** C10 read to the letter: a rejected poll that does not report 202 always
    ends the iteration by throwing. *)
Definition rejection_always_throws : Prop :=
  forall (w : World) (url : string) (ms : Z) (s : State) (reason : JsValue),
    on_checkCanceled w (checks s) = None ->
    settled (on_doAuthRequest w (sent s)) = Reject reason ->
    is_number (rejected_status reason) 202 = false ->
    exists e : Exn, fst (attempt w url ms s) = Throw e.

(** ** Scripted worlds *)

Definition responds (status : Z) (body : JsValue) : Outcome :=
  {| validated := [status]; settled := Resolve body |}.

Definition rejects (statuses : list Z) (reason : JsValue) : Outcome :=
  {| validated := statuses; settled := Reject reason |}.

(** The error an HTTP library rejects with when [validateStatus] said no. *)
Definition http_error (status : Z) (message : string) : JsValue :=
  JsObj [("message", JsStr message); ("response", JsObj [("status", JsNum status)])].

(** The error of a request that got no response at all. *)
Definition network_error (message : string) : JsValue :=
  JsObj [("message", JsStr message)].

Definition never_canceled : nat -> option JsValue := fun _ => None.

Definition canceled_at (k : nat) (e : JsValue) : nat -> option JsValue :=
  fun n => if (n =? k)%nat then Some e else None.

(** The requests are answered from [answers], in order, and by [rest] once the
    list is used up. *)
Definition scripted (cancel : nat -> option JsValue) (answers : list Outcome)
           (rest : Outcome) : World :=
  {| on_checkCanceled := cancel; on_doAuthRequest := fun n => nth n answers rest |}.

Definition a_request : JsValue := JsObj [("component_id", JsStr "root")].
Definition submitted : Outcome := responds 200 (JsObj [("scan_id", JsStr "abc")]).
Definition a_result : JsValue :=
  JsObj [("scan_id", JsStr "abc"); ("vulnerabilities", JsArr [])].
Definition at_percent (p : Z) : Outcome :=
  responds 202 (JsObj [("progress_percentage", JsNum p)]).
Definition no_percent : Outcome := responds 202 (JsObj []).

Definition poll_true : string :=
  "api/v1/scan/graph/abc?include_licenses=true&include_vulnerabilities=true".
Definition poll_false : string :=
  "api/v1/scan/graph/abc?include_licenses=true&include_vulnerabilities=false".

Definition two_then_done : World :=
  scripted never_canceled [at_percent 30; no_percent; responds 200 a_result] no_percent.

Definition never_done : World :=
  {| on_checkCanceled := never_canceled; on_doAuthRequest := fun _ => at_percent 99 |}.

Definition scoped_scan : World :=
  scripted never_canceled [submitted; at_percent 30; responds 200 a_result] no_percent.

Definition canceled_in_front_of_second_poll : World :=
  scripted (canceled_at 2 (JsStr "canceled")) [submitted] (at_percent 30).

Definition rejected_with (status : Z) : World :=
  scripted never_canceled [rejects [status] (http_error status "Bad body")] no_percent.

Definition canceled_at_once : World :=
  scripted (canceled_at 0 (JsStr "canceled")) [] submitted.

Definition submit_refused : World :=
  scripted never_canceled [rejects [401%Z] (http_error 401 "Unauthorized")] no_percent.

Definition submit_answers_null : World :=
  scripted never_canceled [responds 200 JsNull] no_percent.

Definition completes_on_third_poll : World :=
  scripted never_canceled [submitted; at_percent 30; no_percent; responds 200 a_result]
           no_percent.

(** ** Reading a trace *)

Definition is_request (e : Event) : bool :=
  match e with
  | EvRequest _ _ _ => true
  | _ => false
  end.

(** The calls of [doAuthRequest] of a trace, in order. *)
Definition requests (t : list Event) : list Event := filter is_request t.

(** The intervals slept, in order. *)
Definition delays (t : list Event) : list Z :=
  flat_map (fun e => match e with EvDelay ms => [ms] | _ => [] end) t.

(** The percentages handed to the progress sink, in order. *)
Definition sink_writes (t : list Event) : list JsValue :=
  flat_map (fun e => match e with EvSetPercentage p => [p] | _ => [] end) t.

Definition submit_request (request : JsValue) (projectKey : option string) : Event :=
  EvRequest "POST" (submitUrl projectKey) request.

Definition poll_request (url : string) : Event := EvRequest "GET" url JsUndefined.

(** What some iterations of the loop, [n] at most, have added between the
    states [s] and [s']: [c] checks and [g] requests, all of them polls of
    [url], with a check in front of each request and at most one check that
    no request follows; [d] delays of [ms] each, none without its request;
    only truthy percentages for the sink, none without its delay. *)
Definition polled (url : string) (ms : Z) (n : nat) (s s' : State) : Prop :=
  exists (l : list Event) (c g d : nat),
    trace s' = trace s ++ l
    /\ checks s' = checks s + c /\ sent s' = sent s + g
    /\ g <= c <= S g /\ c <= n
    /\ requests l = repeat (poll_request url) g
    /\ delays l = repeat ms d /\ d <= g
    /\ Forall (fun p => truthy p = true) (sink_writes l)
    /\ List.length (sink_writes l) <= d.

(** ** What an attempt receives, read off the world *)

(** The status of a poll, whichever way its promise settles: the last one
    handed to [validateStatus] when it resolves, [reason.response?.status]
    when it rejects. *)
Definition received_status (o : Outcome) : JsValue :=
  match settled o with
  | Resolve _ => captured (validated o)
  | Reject reason => rejected_status reason
  end.

(** The message that comes with it: [reason?.message] of a rejection. *)
Definition received_message (o : Outcome) : JsValue :=
  match settled o with
  | Resolve _ => JsUndefined
  | Reject reason => optional_member reason "message"
  end.

(** The promise resolved, or rejected with a reason that can be read from. *)
Definition has_reason (o : Outcome) : bool :=
  match settled o with
  | Resolve _ => true
  | Reject reason => negb (nullish reason)
  end.

(** The two error texts of the loop. *)
Definition failure_text (status message : JsValue) : string :=
  if truthy status
  then "Received unexpected status '" ++ to_string status ++ "' from Xray: "
         ++ to_string message
  else "Received response from Xray: " ++ to_string message.

(** The attempt that makes check number [c] and request number [n] gets its
    request out and receives status 202. *)
Definition receives_202 (w : World) (c n : nat) : Prop :=
  on_checkCanceled w c = None
  /\ is_number (received_status (on_doAuthRequest w n)) 202 = true.

(** C2 read to the letter: sixty attempts that receive 202, however they
    receive it, end in the timeout error after sixty requests. *)
Definition sixty_202_always_time_out : Prop :=
  forall (w : World) (scanId : JsValue) (includeVulnerabilities : bool) (ms : Z)
         (s : State),
    (forall j, j < 60 -> receives_202 w (checks s + j) (sent s + j)) ->
    fst (getScanGraphResults w scanId includeVulnerabilities ms s) =
      Throw (Error "Xray get scan graph exceeded the timeout.")
    /\ sent (snd (getScanGraphResults w scanId includeVulnerabilities ms s)) = sent s + 60.

(** C9 read to the letter: a sixtieth attempt that receives 202, however it
    receives it, is followed by a delay and then by the timeout error. *)
Definition last_202_always_sleeps : Prop :=
  forall (w : World) (scanId : JsValue) (includeVulnerabilities : bool) (ms : Z)
         (s : State),
    (forall j, j < 59 -> still_running w (checks s + j) (sent s + j)) ->
    receives_202 w (checks s + 59) (sent s + 59) ->
    exists before : list Event,
      fst (getScanGraphResults w scanId includeVulnerabilities ms s) =
        Throw (Error "Xray get scan graph exceeded the timeout.")
      /\ trace (snd (getScanGraphResults w scanId includeVulnerabilities ms s)) =
           before ++ [EvDelay ms].

(** C3 read to the letter: whenever the attempt has a status, other than 200
    and 202, the error thrown carries it. *)
Definition error_carries_every_status : Prop :=
  forall (w : World) (url : string) (ms : Z) (s : State) (status : Z),
    on_checkCanceled w (checks s) = None ->
    received_status (on_doAuthRequest w (sent s)) = JsNum status ->
    status <> 200%Z -> status <> 202%Z ->
    exists text : string,
      fst (attempt w url ms s) = Throw (Error text)
      /\ includes (to_string (JsNum status)) text = true.

(** Fifty-nine polls in progress, then a 202 whose body is [null]. *)
Definition last_body_null : World :=
  {| on_checkCanceled := never_canceled;
     on_doAuthRequest := fun n => if (n <? 59)%nat then at_percent 10
                                  else responds 202 JsNull |}.

(** Fifty-nine polls in progress, then a rejection that reports 202. *)
Definition last_poll_rejected_202 : World :=
  {| on_checkCanceled := never_canceled;
     on_doAuthRequest := fun n => if (n <? 59)%nat then at_percent 10
                                  else rejects [202%Z] (http_error 202 "Bad body") |}.

(** One poll in progress, then a rejection whose reason holds a 200 response
    and its body. *)
Definition rejected_200_after_one_202 : World :=
  scripted never_canceled
           [at_percent 30;
            rejects [200%Z]
                    (JsObj [("message", JsStr "Unexpected end of JSON input");
                            ("response", JsObj [("status", JsNum 200);
                                                ("data", a_result)])])]
           no_percent.

(** A rejection that reports status 503 although [validateStatus] saw 200. *)
Definition status_only_in_reason : World :=
  scripted never_canceled
           [at_percent 10; rejects [200%Z] (http_error 503 "Service Unavailable")]
           no_percent.

(** ** The order of checks and requests *)

Definition is_check (e : Event) : bool :=
  match e with
  | EvCheckCanceled => true
  | _ => false
  end.

(** Reading a trace from left to right with one flag, [armed]: a check arms,
    and is an error when the flag is already up; a request needs the flag up
    and takes it down.  [Some armed'] is the flag at the end of a trace that
    keeps to this, [None] a trace that does not. *)
Fixpoint discipline (armed : bool) (t : list Event) : option bool :=
  match t with
  | [] => Some armed
  | EvCheckCanceled :: t' => if armed then None else discipline true t'
  | EvRequest _ _ _ :: t' => if armed then discipline false t' else None
  | _ :: t' => discipline armed t'
  end.

(** What the response to request number [n] gives the progress sink when
    that poll is in progress. *)
Definition forwarded (w : World) (n : nat) : list JsValue :=
  if truthy (prop (resolved (on_doAuthRequest w n)) "progress_percentage")
  then [prop (resolved (on_doAuthRequest w n)) "progress_percentage"]
  else [].

(** ** Running the model *)

(** A scan that completes on the third poll. *)
Example run_success :
  graph (scripted never_canceled [submitted; at_percent 30; no_percent; responds 200 a_result]
                  no_percent)
        a_request (Some "proj") (Some 10%Z) initial =
    (Normal a_result,
     {| checks := 4; sent := 4;
        trace := [EvDebug SendingPost; EvDebug (Data a_request); EvCheckCanceled;
                  EvRequest "POST" "api/v1/scan/graph?project=proj" a_request;
                  EvCheckCanceled; EvDebug (SendingGet poll_false);
                  EvRequest "GET" poll_false JsUndefined;
                  EvDebug (ReceivedStatus (JsNum 202));
                  EvSetPercentage (JsNum 30); EvDelay 10;
                  EvCheckCanceled; EvDebug (SendingGet poll_false);
                  EvRequest "GET" poll_false JsUndefined;
                  EvDebug (ReceivedStatus (JsNum 202)); EvDelay 10;
                  EvCheckCanceled; EvDebug (SendingGet poll_false);
                  EvRequest "GET" poll_false JsUndefined;
                  EvDebug (ReceivedStatus (JsNum 200));
                  EvSetPercentage (JsNum 100)] |}).
Proof. reflexivity. Qed.

(** A poll answered with status 500. *)
Example run_unexpected_status :
  graph (scripted never_canceled
                  [submitted; rejects [500%Z] (http_error 500 "Request failed with status code 500")]
                  no_percent)
        a_request None None initial =
    (Throw (Error "Received unexpected status '500' from Xray: Request failed with status code 500"),
     {| checks := 2; sent := 2;
        trace := [EvDebug SendingPost; EvDebug (Data a_request); EvCheckCanceled;
                  EvRequest "POST" "api/v1/scan/graph" a_request;
                  EvCheckCanceled; EvDebug (SendingGet poll_true);
                  EvRequest "GET" poll_true JsUndefined;
                  EvDebug (ReceivedStatus (JsNum 500));
                  EvSetPercentage (JsNum 100)] |}).
Proof. reflexivity. Qed.

(** A poll that never reached the server. *)
Example run_transport_failure :
  graph (scripted never_canceled
                  [submitted; at_percent 50; rejects [] (network_error "connect ECONNREFUSED")]
                  no_percent)
        a_request (Some EmptyString) None initial =
    (Throw (Error "Received response from Xray: connect ECONNREFUSED"),
     {| checks := 3; sent := 3;
        trace := [EvDebug SendingPost; EvDebug (Data a_request); EvCheckCanceled;
                  EvRequest "POST" "api/v1/scan/graph" a_request;
                  EvCheckCanceled; EvDebug (SendingGet poll_true);
                  EvRequest "GET" poll_true JsUndefined;
                  EvDebug (ReceivedStatus (JsNum 202));
                  EvSetPercentage (JsNum 50); EvDelay 5000;
                  EvCheckCanceled; EvDebug (SendingGet poll_true);
                  EvRequest "GET" poll_true JsUndefined;
                  EvDebug (ReceivedStatus JsUndefined);
                  EvSetPercentage (JsNum 100)] |}).
Proof. reflexivity. Qed.

(** A submit request that is rejected: the reason is rethrown as it is. *)
Example run_submit_rejected :
  graph (scripted never_canceled [rejects [] (http_error 401 "Unauthorized")] no_percent)
        a_request None None initial =
    (Throw (Thrown (http_error 401 "Unauthorized")),
     {| checks := 1; sent := 1;
        trace := [EvDebug SendingPost; EvDebug (Data a_request); EvCheckCanceled;
                  EvRequest "POST" "api/v1/scan/graph" a_request;
                  EvSetPercentage (JsNum 100)] |}).
Proof. reflexivity. Qed.

(** Cancellation in front of the submit request. *)
Example run_canceled_before_submit :
  graph (scripted (canceled_at 0 (JsStr "canceled")) [] submitted)
        a_request None None initial =
    (Throw (Thrown (JsStr "canceled")),
     {| checks := 1; sent := 0;
        trace := [EvDebug SendingPost; EvDebug (Data a_request); EvCheckCanceled;
                  EvSetPercentage (JsNum 100)] |}).
Proof. reflexivity. Qed.

(** A scan that never completes: sixty polls, sixty delays, then the timeout. *)
Example run_timeout :
  let r := graph (scripted never_canceled [submitted] (at_percent 99))
                 a_request None (Some 1%Z) initial in
  fst r = Throw (Error "Xray get scan graph exceeded the timeout.")
  /\ sent (snd r) = 61
  /\ List.length (filter (fun e => match e with EvDelay _ => true | _ => false end)
                         (trace (snd r))) = 60
  /\ skipn (List.length (trace (snd r)) - 3) (trace (snd r)) =
       [EvSetPercentage (JsNum 99); EvDelay 1; EvSetPercentage (JsNum 100)].
Proof. vm_compute. repeat split. Qed.

Example run_zero_percent :
  attempt (scripted never_canceled [at_percent 0] no_percent) poll_true 10 initial =
    (Normal None,
     {| checks := 1; sent := 1;
        trace := [EvCheckCanceled; EvDebug (SendingGet poll_true);
                  EvRequest "GET" poll_true JsUndefined;
                  EvDebug (ReceivedStatus (JsNum 202)); EvDelay 10] |}).
Proof. reflexivity. Qed.

Example run_empty_object :
  graph (scripted never_canceled [submitted; responds 200 a_result] no_percent)
        (JsObj []) None (Some 10%Z) initial =
    (Normal a_result,
     {| checks := 2; sent := 2;
        trace := [EvDebug SendingPost; EvDebug (Data (JsObj [])); EvCheckCanceled;
                  EvRequest "POST" "api/v1/scan/graph" (JsObj []);
                  EvCheckCanceled; EvDebug (SendingGet poll_true);
                  EvRequest "GET" poll_true JsUndefined;
                  EvDebug (ReceivedStatus (JsNum 200));
                  EvSetPercentage (JsNum 100)] |}).
Proof. reflexivity. Qed.

Example run_rejected_200 :
  getScanGraphResults (rejected_with 200) (JsStr "abc") true 10 initial =
    (Normal JsUndefined,
     {| checks := 1; sent := 1;
        trace := [EvCheckCanceled; EvDebug (SendingGet poll_true);
                  EvRequest "GET" poll_true JsUndefined;
                  EvDebug (ReceivedStatus (JsNum 200))] |}).
Proof. reflexivity. Qed.

(** A rejection that reports status 0: [if (receivedStatus)] takes it for no
    status at all. *)
Example run_status_zero :
  fst (getScanGraphResults (rejected_with 0) (JsStr "abc") true 10 initial) =
    Throw (Error "Received response from Xray: Bad body").
Proof. reflexivity. Qed.

(** A rejection that reports 202 is the one case that reads from [undefined]. *)
Example run_rejected_202 :
  fst (getScanGraphResults (rejected_with 202) (JsStr "abc") true 10 initial) =
    Throw (TypeError JsUndefined "progress_percentage").
Proof. reflexivity. Qed.

(** ** Basic facts *)

Lemma is_number_eq (v : JsValue) (n : Z) : is_number v n = true -> v = JsNum n.
Proof.
  destruct v; simpl; try discriminate.
  intros H. apply Z.eqb_eq in H. now subst.
Qed.

Lemma poll_S (w : World) (n : nat) (url : string) (ms : Z) (s : State) :
  poll w (S n) url ms s =
    match attempt w url ms s with
    | (Normal (Some response), s') => (Normal response, s')
    | (Normal None, s') => poll w n url ms s'
    | (Throw e, s') => (Throw e, s')
    end.
Proof.
  simpl. unfold bind. destruct (attempt w url ms s) as [[[v|]|e] s']; reflexivity.
Qed.

(** The loop body once [checkCanceled] has returned and the request has
    settled: everything that follows is decided by [observe]. *)
Lemma attempt_unfold (w : World) (url : string) (ms : Z) (s : State) :
  on_checkCanceled w (checks s) = None ->
  attempt w url ms s =
    let s1 := {| checks := S (checks s); sent := S (sent s);
                 trace := (trace s ++ [EvCheckCanceled]) ++ [EvDebug (SendingGet url)]
                            ++ [EvRequest "GET" url JsUndefined] |} in
    match observe (on_doAuthRequest w (sent s)) with
    | inl e => (Throw e, s1)
    | inr (response, receivedStatus, message) =>
        let s2 := {| checks := checks s1; sent := sent s1;
                     trace := trace s1 ++ [EvDebug (ReceivedStatus receivedStatus)] |} in
        if is_number receivedStatus 200 then (Normal (Some response), s2)
        else if is_number receivedStatus 202 then
          if nullish response then (Throw (TypeError response "progress_percentage"), s2)
          else (Normal None,
                {| checks := checks s2; sent := sent s2;
                   trace := (trace s2 ++ progress_update response) ++ [EvDelay ms] |})
        else if truthy receivedStatus then
          (Throw (Error ("Received unexpected status '" ++ to_string receivedStatus
                           ++ "' from Xray: " ++ to_string message)), s2)
        else
          (Throw (Error ("Received response from Xray: " ++ to_string message)), s2)
    end.
Proof.
  intros Hc. unfold attempt, bind, checkCanceled, debug, doAuthRequest, emit. simpl.
  rewrite Hc. simpl. rewrite <- !app_assoc. simpl.
  destruct (observe (on_doAuthRequest w (sent s))) as [e | [[response st] message]]; simpl;
    [reflexivity|].
  destruct (is_number st 200); [reflexivity|].
  destruct (is_number st 202).
  - unfold member, progress_update. destruct (nullish response); simpl; [reflexivity|].
    destruct (truthy (prop response "progress_percentage")); simpl;
      rewrite <- ?app_assoc; simpl; try rewrite app_nil_r; reflexivity.
  - destruct (truthy st); reflexivity.
Qed.

Lemma attempt_canceled (w : World) (url : string) (ms : Z) (s : State) (e : JsValue) :
  on_checkCanceled w (checks s) = Some e ->
  attempt w url ms s =
    (Throw (Thrown e),
     {| checks := S (checks s); sent := sent s; trace := trace s ++ [EvCheckCanceled] |}).
Proof.
  intros Hc. unfold attempt, bind, checkCanceled. rewrite Hc. reflexivity.
Qed.

Lemma attempt_in_progress (w : World) (url : string) (ms : Z) (s : State) :
  still_running w (checks s) (sent s) ->
  attempt w url ms s =
    (Normal None,
     {| checks := S (checks s); sent := S (sent s);
        trace := trace s ++ iteration_events w url ms (sent s) |}).
Proof.
  intros [Hc Hp]. rewrite (attempt_unfold w url ms s Hc).
  unfold in_progress in Hp. unfold observe, iteration_events, resolved, request_events.
  destruct (settled (on_doAuthRequest w (sent s))) as [response | reason];
    [|discriminate].
  apply andb_true_iff in Hp. destruct Hp as [Hn H202].
  apply negb_true_iff in Hn. apply is_number_eq in H202.
  cbv zeta. rewrite H202, Hn. simpl.
  rewrite <- !app_assoc. reflexivity.
Qed.

(** [k] iterations in a row that stay in progress move the loop [k] requests
    on and leave [k] fewer iterations to run. *)
Lemma poll_in_progress (w : World) (url : string) (ms : Z) :
  forall (k n : nat) (s : State),
    (forall j, j < k -> still_running w (checks s + j) (sent s + j)) ->
    poll w (k + n) url ms s =
      poll w n url ms
           {| checks := checks s + k; sent := sent s + k;
              trace := trace s ++ flat_map (iteration_events w url ms) (seq (sent s) k) |}.
Proof.
  induction k as [|k IH]; intros n s Hrun.
  - destruct s as [c r t]. simpl. rewrite !Nat.add_0_r, app_nil_r. reflexivity.
  - change (S k + n) with (S (k + n)). rewrite poll_S.
    rewrite attempt_in_progress.
    2:{ specialize (Hrun 0 ltac:(lia)). now rewrite !Nat.add_0_r in Hrun. }
    rewrite IH.
    + cbn [checks sent trace]. rewrite <- !Nat.add_succ_comm.
      cbn [seq flat_map]. now rewrite <- app_assoc.
    + intros j Hj. cbn [checks sent]. specialize (Hrun (S j) ltac:(lia)).
      now rewrite <- !Nat.add_succ_comm in Hrun.
Qed.

(** Once the submit request has resolved with something that has properties,
    [graph] is the polling loop followed by the cleanup. *)
Lemma graph_submitted (w : World) (request : JsValue) (projectKey : option string)
      (ms : option Z) (s : State) (response : JsValue) :
  truthy request = true ->
  on_checkCanceled w (checks s) = None ->
  settled (on_doAuthRequest w (sent s)) = Resolve response ->
  nullish response = false ->
  graph w request projectKey ms s =
    let r := getScanGraphResults w (prop response "scan_id")
               (negb (projectProvided projectKey)) (or_default ms)
               {| checks := S (checks s); sent := S (sent s);
                  trace := trace s ++ submit_events request projectKey |} in
    (fst r, {| checks := checks (snd r); sent := sent (snd r);
               trace := trace (snd r) ++ [EvSetPercentage (JsNum 100)] |}).
Proof.
  intros Ht Hc Hres Hn.
  unfold graph, finally. rewrite Ht. cbn [negb].
  remember (getScanGraphResults w) as loop eqn:Hloop.
  unfold bind, debug, emit, checkCanceled, doAuthRequest, await, member, setPercentage.
  cbn -[submitUrl]. rewrite Hc. cbn -[submitUrl]. rewrite Hres.
  unfold ret at 1. rewrite Hn. unfold ret at 1.
  cbn -[submitUrl]. unfold submit_events. rewrite <- !app_assoc. cbn [app].
  destruct (loop _ _ _ _) as [r s']. reflexivity.
Qed.

Lemma falsy_request_skips_network_aux (w : World) (request : JsValue)
      (projectKey : option string) (ms : option Z) (s : State) :
  truthy request = false ->
  graph w request projectKey ms s =
    (Normal (JsObj []),
     {| checks := checks s; sent := sent s;
        trace := trace s ++ [EvSetPercentage (JsNum 100)] |}).
Proof.
  intros Hf. unfold graph, finally. rewrite Hf. reflexivity.
Qed.

(** ** The polling loop *)

(** The first poll that resolves under status 200 ends the loop: its payload
    is the result as it came, and the request and the debug line of that
    iteration are the last things that happen; no delay and no request
    follow.  This is C1 on every run in which the 200 comes with a resolved
    promise. *)
Theorem first_200_returns_payload :
  forall (w : World) (scanId : JsValue) (includeVulnerabilities : bool) (ms : Z)
         (s : State) (k : nat) (payload : JsValue),
    k < MAX_ATTEMPTS ->
    (forall j, j < k -> still_running w (checks s + j) (sent s + j)) ->
    on_checkCanceled w (checks s + k) = None ->
    settled (on_doAuthRequest w (sent s + k)) = Resolve payload ->
    captured (validated (on_doAuthRequest w (sent s + k))) = JsNum 200 ->
    getScanGraphResults w scanId includeVulnerabilities ms s =
      (Normal payload,
       {| checks := checks s + k + 1; sent := sent s + k + 1;
          trace := trace s
                     ++ flat_map (iteration_events w (scanGraphUrl scanId includeVulnerabilities) ms)
                                 (seq (sent s) k)
                     ++ request_events (scanGraphUrl scanId includeVulnerabilities)
                     ++ [EvDebug (ReceivedStatus (JsNum 200))] |}).
Proof.
  intros w scanId incl ms s k payload Hk Hrun Hc Hres H200.
  unfold getScanGraphResults.
  replace MAX_ATTEMPTS with (k + S (MAX_ATTEMPTS - S k)) by lia.
  rewrite poll_in_progress by exact Hrun.
  rewrite poll_S, attempt_unfold by exact Hc.
  cbn [checks sent trace]. unfold observe. rewrite Hres, H200. simpl.
  unfold request_events. rewrite <- !app_assoc, !Nat.add_1_r. reflexivity.
Qed.

Lemma first_200_returns_payload_witness :
  getScanGraphResults two_then_done (JsStr "abc") true 10 initial =
    (Normal a_result,
     {| checks := 3; sent := 3;
        trace := [EvCheckCanceled; EvDebug (SendingGet poll_true);
                  EvRequest "GET" poll_true JsUndefined;
                  EvDebug (ReceivedStatus (JsNum 202));
                  EvSetPercentage (JsNum 30); EvDelay 10;
                  EvCheckCanceled; EvDebug (SendingGet poll_true);
                  EvRequest "GET" poll_true JsUndefined;
                  EvDebug (ReceivedStatus (JsNum 202)); EvDelay 10;
                  EvCheckCanceled; EvDebug (SendingGet poll_true);
                  EvRequest "GET" poll_true JsUndefined;
                  EvDebug (ReceivedStatus (JsNum 200))] |}).
Proof.
  apply (first_200_returns_payload two_then_done (JsStr "abc") true 10 initial 2 a_result).
  - unfold MAX_ATTEMPTS. lia.
  - intros j Hj. destruct j as [|[|j]]; [split; reflexivity | split; reflexivity | lia].
  - reflexivity.
  - reflexivity.
  - reflexivity.
Defined.

(** C2, for polls that stay in progress.  Sixty polls in a row that resolve
    with a readable body under status 202 exhaust the loop: the call throws the timeout error after exactly
    sixty requests, so no 61st request is made. *)
Theorem sixty_202_time_out :
  forall (w : World) (scanId : JsValue) (includeVulnerabilities : bool) (ms : Z)
         (s : State),
    (forall j, j < 60 -> still_running w (checks s + j) (sent s + j)) ->
    getScanGraphResults w scanId includeVulnerabilities ms s =
      (Throw (Error "Xray get scan graph exceeded the timeout."),
       {| checks := checks s + 60; sent := sent s + 60;
          trace := trace s
                     ++ flat_map (iteration_events w (scanGraphUrl scanId includeVulnerabilities) ms)
                                 (seq (sent s) 60) |}).
Proof.
  intros w scanId incl ms s Hrun. unfold getScanGraphResults.
  change 60 with MAX_ATTEMPTS in *.
  rewrite <- (Nat.add_0_r MAX_ATTEMPTS) at 1.
  rewrite poll_in_progress by exact Hrun. reflexivity.
Qed.

Lemma sixty_202_time_out_witness :
  fst (getScanGraphResults never_done (JsStr "abc") true 1 initial) =
    Throw (Error "Xray get scan graph exceeded the timeout.")
  /\ sent (snd (getScanGraphResults never_done (JsStr "abc") true 1 initial)) = 60.
Proof.
  rewrite (sixty_202_time_out never_done (JsStr "abc") true 1 initial).
  - split; reflexivity.
  - intros j Hj. split; reflexivity.
Defined.

(** C9, for polls that stay in progress.  When the sixtieth poll, like those
    before, resolves with a readable body under status 202, its iteration runs
    to the end like any other: the delay of [ms] follows the request, and only then,
    with nothing in between, the timeout error is thrown. *)
Theorem last_attempt_sleeps_before_timeout :
  forall (w : World) (scanId : JsValue) (includeVulnerabilities : bool) (ms : Z)
         (s : State),
    (forall j, j < 60 -> still_running w (checks s + j) (sent s + j)) ->
    exists before : list Event,
      getScanGraphResults w scanId includeVulnerabilities ms s =
        (Throw (Error "Xray get scan graph exceeded the timeout."),
         {| checks := checks s + 60; sent := sent s + 60;
            trace := before
                       ++ [EvRequest "GET" (scanGraphUrl scanId includeVulnerabilities) JsUndefined;
                           EvDebug (ReceivedStatus (JsNum 202))]
                       ++ progress_update (resolved (on_doAuthRequest w (sent s + 59)))
                       ++ [EvDelay ms] |}).
Proof.
  intros w scanId incl ms s Hrun.
  set (url := scanGraphUrl scanId incl).
  exists (trace s ++ flat_map (iteration_events w url ms) (seq (sent s) 59)
            ++ [EvCheckCanceled; EvDebug (SendingGet url)]).
  unfold getScanGraphResults. fold url.
  change MAX_ATTEMPTS with (60 + 0).
  rewrite poll_in_progress by exact Hrun.
  change 60 with (S 59) at 3. rewrite seq_S, flat_map_app.
  cbn [flat_map poll]. unfold throw, iteration_events, request_events.
  rewrite app_nil_r, <- !app_assoc. reflexivity.
Qed.

Lemma last_attempt_sleeps_before_timeout_witness :
  exists before : list Event,
    getScanGraphResults never_done (JsStr "abc") true 1 initial =
      (Throw (Error "Xray get scan graph exceeded the timeout."),
       {| checks := 60; sent := 60;
          trace := before ++ [EvRequest "GET" poll_true JsUndefined;
                              EvDebug (ReceivedStatus (JsNum 202));
                              EvSetPercentage (JsNum 99); EvDelay 1] |}).
Proof.
  apply (last_attempt_sleeps_before_timeout never_done (JsStr "abc") true 1 initial).
  intros j Hj. split; reflexivity.
Defined.

(** C2 fails to the letter: with fifty-nine polls in progress and a sixtieth
    that receives 202 with [null] for a body, all sixty attempts receive 202,
    and the call ends in a TypeError, not in the timeout. *)
Lemma null_body_202_is_not_a_timeout : ~ sixty_202_always_time_out.
Proof.
  intros H.
  destruct (H last_body_null (JsStr "abc") true 10%Z initial) as [Hr _].
  - intros j Hj. unfold receives_202. cbn.
    match goal with |- context [if ?b then _ else _] => destruct b end;
      split; reflexivity.
  - vm_compute in Hr. discriminate Hr.
Qed.

Example run_last_body_null :
  fst (getScanGraphResults last_body_null (JsStr "abc") true 10 initial) =
    Throw (TypeError JsNull "progress_percentage")
  /\ sent (snd (getScanGraphResults last_body_null (JsStr "abc") true 10 initial)) = 60
  /\ List.length (delays (trace (snd (getScanGraphResults last_body_null (JsStr "abc")
                                                          true 10 initial)))) = 59.
Proof. vm_compute. repeat split. Qed.

(** C9 fails to the letter: when the sixtieth attempt receives its 202 by way
    of a rejection, the iteration throws a TypeError right after the debug
    line; there is no last delay and no timeout error. *)
Lemma rejected_202_skips_the_last_sleep : ~ last_202_always_sleeps.
Proof.
  intros H.
  destruct (H last_poll_rejected_202 (JsStr "abc") true 10%Z initial) as [before [Hr _]].
  - intros j Hj. unfold still_running. cbn.
    match goal with |- context [if ?b then _ else _] => destruct b eqn:Hb end;
      [split; reflexivity|].
    apply Nat.leb_gt in Hb. lia.
  - split; reflexivity.
  - vm_compute in Hr. discriminate Hr.
Qed.

Example run_last_poll_rejected_202 :
  fst (getScanGraphResults last_poll_rejected_202 (JsStr "abc") true 10 initial) =
    Throw (TypeError JsUndefined "progress_percentage")
  /\ skipn 353 (trace (snd (getScanGraphResults last_poll_rejected_202 (JsStr "abc")
                                                true 10 initial))) =
       [EvDelay 10; EvCheckCanceled; EvDebug (SendingGet poll_true);
        EvRequest "GET" poll_true JsUndefined; EvDebug (ReceivedStatus (JsNum 202))].
Proof. vm_compute. repeat split. Qed.

(** The locals of an iteration after the request, from what the world did. *)
Lemma observe_received (o : Outcome) :
  observe o =
    match settled o with
    | Resolve response => inr (response, received_status o, received_message o)
    | Reject reason =>
        if nullish reason then inl (TypeError reason "response")
        else inr (JsUndefined, received_status o, received_message o)
    end.
Proof.
  unfold observe, received_status, received_message, rejected_status.
  destruct (settled o) as [response|reason]; reflexivity.
Qed.

(** C3, as the code has it.  A poll whose status, however it was received, is
    neither 200 nor 202 (or that has none) makes the call throw at once, and
    its request is the last one made.  Unless the rejection reason is itself
    [null] or [undefined], the error is one of the two texts of the loop: it
    names the status when the status is truthy, and the message of the
    rejection in both cases. *)
Theorem unexpected_outcome_fails_at_once :
  forall (w : World) (scanId : JsValue) (includeVulnerabilities : bool) (ms : Z)
         (s : State) (k : nat),
    k < MAX_ATTEMPTS ->
    (forall j, j < k -> still_running w (checks s + j) (sent s + j)) ->
    on_checkCanceled w (checks s + k) = None ->
    is_number (received_status (on_doAuthRequest w (sent s + k))) 200 = false ->
    is_number (received_status (on_doAuthRequest w (sent s + k))) 202 = false ->
    exists (e : Exn) (s' : State),
      getScanGraphResults w scanId includeVulnerabilities ms s = (Throw e, s')
      /\ checks s' = checks s + k + 1
      /\ sent s' = sent s + k + 1
      /\ (has_reason (on_doAuthRequest w (sent s + k)) = true ->
          e = Error (failure_text (received_status (on_doAuthRequest w (sent s + k)))
                                  (received_message (on_doAuthRequest w (sent s + k))))
          /\ trace s' =
               trace s
                 ++ flat_map (iteration_events w (scanGraphUrl scanId includeVulnerabilities) ms)
                             (seq (sent s) k)
                 ++ request_events (scanGraphUrl scanId includeVulnerabilities)
                 ++ [EvDebug (ReceivedStatus
                                (received_status (on_doAuthRequest w (sent s + k))))]).
Proof.
  intros w scanId incl ms s k Hk Hrun Hc H200 H202.
  unfold getScanGraphResults.
  replace MAX_ATTEMPTS with (k + S (MAX_ATTEMPTS - S k)) by lia.
  rewrite poll_in_progress by exact Hrun.
  rewrite poll_S, attempt_unfold by exact Hc.
  cbn [checks sent trace]. rewrite observe_received. unfold has_reason.
  destruct (settled (on_doAuthRequest w (sent s + k))) as [response|reason] eqn:Hs;
    [|destruct (nullish reason) eqn:Hn]; cbv zeta; rewrite ?H200, ?H202.
  - unfold failure_text.
    destruct (truthy (received_status (on_doAuthRequest w (sent s + k))));
      do 2 eexists; (split; [reflexivity|]); cbn [checks sent trace];
      (split; [lia|]); (split; [lia|]); intros _; (split; [reflexivity|]);
      unfold request_events; rewrite <- !app_assoc; reflexivity.
  - do 2 eexists. split; [reflexivity|]. cbn [checks sent].
    split; [lia|]. split; [lia|]. discriminate.
  - unfold failure_text.
    destruct (truthy (received_status (on_doAuthRequest w (sent s + k))));
      do 2 eexists; (split; [reflexivity|]); cbn [checks sent trace];
      (split; [lia|]); (split; [lia|]); intros _; (split; [reflexivity|]);
      unfold request_events; rewrite <- !app_assoc; reflexivity.
Qed.

Lemma unexpected_outcome_fails_at_once_witness :
  exists (e : Exn) (s' : State),
    getScanGraphResults status_only_in_reason (JsStr "abc") false 10 initial = (Throw e, s')
    /\ checks s' = 2
    /\ sent s' = 2
    /\ e = Error "Received unexpected status '503' from Xray: Service Unavailable"
    /\ trace s' =
         [EvCheckCanceled; EvDebug (SendingGet poll_false);
          EvRequest "GET" poll_false JsUndefined;
          EvDebug (ReceivedStatus (JsNum 202));
          EvSetPercentage (JsNum 10); EvDelay 10;
          EvCheckCanceled; EvDebug (SendingGet poll_false);
          EvRequest "GET" poll_false JsUndefined;
          EvDebug (ReceivedStatus (JsNum 503))].
Proof.
  destruct (unexpected_outcome_fails_at_once status_only_in_reason (JsStr "abc") false 10
              initial 1) as [e [s' [Hr [Hc [Hs Hread]]]]].
  - unfold MAX_ATTEMPTS. lia.
  - intros j Hj. destruct j as [|j]; [split; reflexivity | lia].
  - reflexivity.
  - reflexivity.
  - reflexivity.
  - destruct (Hread eq_refl) as [He Ht].
    exists e, s'. repeat split; assumption.
Defined.

(** C3 fails to the letter: a rejection that reports status 0 has a status,
    and the error thrown, "Received response from Xray: Bad body", does not
    carry it, since [if (receivedStatus)] takes 0 for no status. *)
Lemma status_zero_is_not_carried : ~ error_carries_every_status.
Proof.
  intros H.
  destruct (H (rejected_with 0) poll_true 10%Z initial 0%Z eq_refl eq_refl)
    as [text [Ht Hin]]; try discriminate.
  vm_compute in Ht. inversion Ht. subst text. vm_compute in Hin. discriminate Hin.
Qed.

(** C1, where the code departs from it.  The second poll is answered with
    status 200, but its promise rejects; the reason holds the response and its
    body.  The loop sees [receivedStatus === 200] and returns [response], which
    the catch handler left [undefined]: the call ends normally, and the body
    that came with the 200 is not what it returns. *)
Theorem rejected_200_ends_without_payload :
  getScanGraphResults rejected_200_after_one_202 (JsStr "abc") true 10 initial =
    (Normal JsUndefined,
     {| checks := 2; sent := 2;
        trace := [EvCheckCanceled; EvDebug (SendingGet poll_true);
                  EvRequest "GET" poll_true JsUndefined;
                  EvDebug (ReceivedStatus (JsNum 202));
                  EvSetPercentage (JsNum 30); EvDelay 10;
                  EvCheckCanceled; EvDebug (SendingGet poll_true);
                  EvRequest "GET" poll_true JsUndefined;
                  EvDebug (ReceivedStatus (JsNum 200))] |}).
Proof. reflexivity. Qed.

(** ** One iteration *)

(** C4, as the code has it: the guard is [if (response.progress_percentage)],
    so under status 202 a truthy [progress_percentage] is handed to the sink
    exactly as it came, once, between the debug line and the delay; a missing
    field, and a present one that is falsy (0, null), leave the sink unwritten
    in that iteration. *)
Theorem truthy_percentage_reaches_sink :
  forall (w : World) (url : string) (ms : Z) (s : State) (response : JsValue),
    on_checkCanceled w (checks s) = None ->
    settled (on_doAuthRequest w (sent s)) = Resolve response ->
    captured (validated (on_doAuthRequest w (sent s))) = JsNum 202 ->
    nullish response = false ->
    attempt w url ms s =
      (Normal None,
       {| checks := S (checks s); sent := S (sent s);
          trace := trace s ++ request_events url ++ [EvDebug (ReceivedStatus (JsNum 202))]
                     ++ (if truthy (prop response "progress_percentage")
                         then [EvSetPercentage (prop response "progress_percentage")]
                         else [])
                     ++ [EvDelay ms] |}).
Proof.
  intros w url ms s response Hc Hres H202 Hn.
  rewrite attempt_unfold by exact Hc.
  unfold observe. rewrite Hres, H202. cbv zeta. simpl is_number. cbv iota.
  rewrite Hn. unfold progress_update, request_events. cbn [checks sent trace].
  rewrite <- !app_assoc. reflexivity.
Qed.

Lemma truthy_percentage_reaches_sink_witness :
  attempt (scripted never_canceled [at_percent 42] no_percent) poll_true 10 initial =
    (Normal None,
     {| checks := 1; sent := 1;
        trace := [EvCheckCanceled; EvDebug (SendingGet poll_true);
                  EvRequest "GET" poll_true JsUndefined;
                  EvDebug (ReceivedStatus (JsNum 202));
                  EvSetPercentage (JsNum 42); EvDelay 10] |}).
Proof.
  apply (truthy_percentage_reaches_sink (scripted never_canceled [at_percent 42] no_percent)
           poll_true 10 initial (JsObj [("progress_percentage", JsNum 42)]));
    reflexivity.
Defined.

(** C4 fails to the letter: a 202 response at 0 percent carries the field, and
    the iteration goes from the debug line straight to the delay. *)
Lemma zero_percentage_is_dropped : ~ forwards_every_percentage.
Proof.
  intros H.
  specialize (H (scripted never_canceled [at_percent 0] no_percent) poll_true 10%Z initial
                (JsObj [("progress_percentage", JsNum 0)])
                eq_refl eq_refl eq_refl eq_refl).
  vm_compute in H. discriminate H.
Qed.

(** A rejected poll, case by case.  After a rejection [response] is
    [undefined] and [receivedStatus] is what the reason reports, whatever
    [validateStatus] saw before.  Unless that status is 202 the iteration never reads
    [progress_percentage] from the [undefined] response.  It throws, except
    for a reported 200: then [return response] hands [undefined] back. *)
Theorem rejected_poll_never_reads_response :
  forall (w : World) (url : string) (ms : Z) (s : State) (reason : JsValue),
    on_checkCanceled w (checks s) = None ->
    settled (on_doAuthRequest w (sent s)) = Reject reason ->
    is_number (rejected_status reason) 202 = false ->
    (nullish reason = false ->
     observe (on_doAuthRequest w (sent s)) =
       inr (JsUndefined, rejected_status reason, prop reason "message")) /\
    (forall base : JsValue,
        fst (attempt w url ms s) <> Throw (TypeError base "progress_percentage")) /\
    (if is_number (rejected_status reason) 200
     then fst (attempt w url ms s) = Normal (Some JsUndefined)
     else fst (attempt w url ms s) =
            Throw (if nullish reason then TypeError reason "response"
                   else Error (if truthy (rejected_status reason)
                               then "Received unexpected status '"
                                      ++ to_string (rejected_status reason)
                                      ++ "' from Xray: " ++ to_string (prop reason "message")
                               else "Received response from Xray: "
                                      ++ to_string (prop reason "message")))).
Proof.
  intros w url ms s reason Hc Hrej H202.
  rewrite attempt_unfold by exact Hc.
  unfold observe. rewrite Hrej. fold (rejected_status reason).
  unfold optional_member.
  destruct (nullish reason) eqn:Hn; cbv beta iota zeta.
  - repeat split; try discriminate.
    assert (Hst : rejected_status reason = JsUndefined)
      by (destruct reason; try discriminate; reflexivity).
    rewrite Hst. reflexivity.
  - rewrite H202.
    destruct (is_number (rejected_status reason) 200);
      [|destruct (truthy (rejected_status reason))];
      repeat split; try reflexivity; intros; discriminate.
Qed.

Lemma rejected_poll_never_reads_response_witness :
  fst (attempt (rejected_with 503) poll_true 10 initial) =
    Throw (Error "Received unexpected status '503' from Xray: Bad body").
Proof.
  apply (rejected_poll_never_reads_response (rejected_with 503) poll_true 10 initial
           (http_error 503 "Bad body") eq_refl eq_refl eq_refl).
Defined.

(** C10, where the code departs from it.  A rejection that reports 200 is
    told from no other 200: the iteration takes [return response] and hands
    back the [undefined] the catch handler left, where every other rejection
    throws. *)
Theorem rejected_200_takes_the_return_branch :
  attempt (rejected_with 200) poll_true 10 initial =
    (Normal (Some JsUndefined),
     {| checks := 1; sent := 1;
        trace := [EvCheckCanceled; EvDebug (SendingGet poll_true);
                  EvRequest "GET" poll_true JsUndefined;
                  EvDebug (ReceivedStatus (JsNum 200))] |}).
Proof. reflexivity. Qed.

(** So a rejected poll that does not report 202 does not always throw. *)
Lemma rejected_200_returns_undefined : ~ rejection_always_throws.
Proof.
  intros H.
  destruct (H (rejected_with 200) poll_true 10%Z initial (http_error 200 "Bad body")
              eq_refl eq_refl eq_refl) as [e He].
  vm_compute in He. discriminate He.
Qed.

(** ** The whole call *)

(** C5, as the code has it: the guard is [if (!request)], so a falsy request
    ([undefined], [null]) makes [graph] return [{}] with no call of the HTTP
    client and of [checkCanceled], the progress sink set to 100 being all that
    happens. *)
Theorem falsy_request_skips_network :
  forall (w : World) (request : JsValue) (projectKey : option string) (ms : option Z)
         (s : State),
    truthy request = false ->
    graph w request projectKey ms s =
      (Normal (JsObj []),
       {| checks := checks s; sent := sent s;
          trace := trace s ++ [EvSetPercentage (JsNum 100)] |}).
Proof.
  intros w request projectKey ms s Hf. now apply falsy_request_skips_network_aux.
Qed.

Lemma falsy_request_skips_network_witness :
  graph never_done JsUndefined (Some "proj") None initial =
    (Normal (JsObj []),
     {| checks := 0; sent := 0; trace := [EvSetPercentage (JsNum 100)] |}).
Proof.
  apply (falsy_request_skips_network never_done JsUndefined (Some "proj") None initial).
  reflexivity.
Defined.

(** C5 fails to the letter: [{}] is truthy, so an empty request is submitted
    and polled for like any other. *)
Lemma empty_object_is_submitted : ~ empty_request_skips_network.
Proof.
  intros H.
  specialize (H (scripted never_canceled [submitted; responds 200 a_result] no_percent)
                (JsObj []) None (Some 10%Z) (or_intror (or_intror eq_refl))).
  vm_compute in H. discriminate H.
Qed.

(** C7. When [checkCanceled] throws in front of poll attempt [k], what it threw
    comes out of [graph] as it is, the requests made are the submit and the
    [k - 1] polls before, and the progress sink is set to 100 after the failed
    check. *)
Theorem cancel_before_attempt_propagates :
  forall (w : World) (request : JsValue) (projectKey : option string) (ms : option Z)
         (k : nat) (response e : JsValue),
    1 <= k <= 60 ->
    truthy request = true ->
    on_checkCanceled w 0 = None ->
    settled (on_doAuthRequest w 0) = Resolve response ->
    nullish response = false ->
    (forall j, 1 <= j < k -> still_running w j j) ->
    on_checkCanceled w k = Some e ->
    graph w request projectKey ms initial =
      (Throw (Thrown e),
       {| checks := k + 1; sent := k;
          trace := submit_events request projectKey
                     ++ flat_map (iteration_events w
                                    (scanGraphUrl (prop response "scan_id")
                                                  (negb (projectProvided projectKey)))
                                    (or_default ms))
                                 (seq 1 (k - 1))
                     ++ [EvCheckCanceled; EvSetPercentage (JsNum 100)] |}).
Proof.
  intros w request projectKey ms k response e Hk Ht Hc0 Hres Hn Hrun Hck.
  rewrite (graph_submitted w request projectKey ms initial response Ht Hc0 Hres Hn).
  unfold getScanGraphResults.
  replace MAX_ATTEMPTS with ((k - 1) + S (MAX_ATTEMPTS - k))
    by (unfold MAX_ATTEMPTS; lia).
  rewrite poll_in_progress.
  2:{ intros j Hj. cbn [checks sent initial]. apply Hrun. lia. }
  rewrite poll_S, (attempt_canceled _ _ _ _ e).
  2:{ cbn [checks initial]. replace (1 + (k - 1)) with k by lia. exact Hck. }
  cbn [fst snd checks sent trace initial app].
  rewrite <- !app_assoc. cbn [app].
  f_equal. f_equal; lia.
Qed.

Lemma cancel_before_attempt_propagates_witness :
  graph canceled_in_front_of_second_poll a_request None (Some 10%Z) initial =
    (Throw (Thrown (JsStr "canceled")),
     {| checks := 3; sent := 2;
        trace := [EvDebug SendingPost; EvDebug (Data a_request); EvCheckCanceled;
                  EvRequest "POST" "api/v1/scan/graph" a_request;
                  EvCheckCanceled; EvDebug (SendingGet poll_true);
                  EvRequest "GET" poll_true JsUndefined;
                  EvDebug (ReceivedStatus (JsNum 202));
                  EvSetPercentage (JsNum 30); EvDelay 10;
                  EvCheckCanceled; EvSetPercentage (JsNum 100)] |}).
Proof.
  apply (cancel_before_attempt_propagates canceled_in_front_of_second_poll a_request None
           (Some 10%Z) 2 (JsObj [("scan_id", JsStr "abc")]) (JsStr "canceled")).
  - lia.
  - reflexivity.
  - reflexivity.
  - reflexivity.
  - reflexivity.
  - intros j Hj. destruct j as [|[|j]]; [lia | split; reflexivity | lia].
  - reflexivity.
Defined.

(** C8. However [graph] ends, with a result or with whatever exception, the
    last thing that happened is the progress sink being set to 100. *)
Theorem progress_is_100_on_exit :
  forall (w : World) (request : JsValue) (projectKey : option string) (ms : option Z)
         (s : State),
    exists before : list Event,
      trace (snd (graph w request projectKey ms s)) =
        before ++ [EvSetPercentage (JsNum 100)].
Proof.
  intros w request projectKey ms s. unfold graph, finally.
  match goal with |- context [let (_, _) := ?body s in _] => destruct (body s) as [r s'] end.
  exists (trace s'). reflexivity.
Qed.

(** ** The URLs of a call *)

Lemma includes_append (needle front back : string) :
  includes needle back = true -> includes needle (front ++ back) = true.
Proof.
  intros H. induction front as [|c front IH]; [exact H|].
  cbn [append includes]. rewrite IH. apply orb_true_r.
Qed.

Lemma scanGraphUrl_flag (scanId : JsValue) (includeVulnerabilities : bool) :
  includes ("include_vulnerabilities=" ++ to_string (JsBool includeVulnerabilities))
           (scanGraphUrl scanId includeVulnerabilities) = true.
Proof.
  unfold scanGraphUrl. do 3 apply includes_append.
  destruct includeVulnerabilities; reflexivity.
Qed.

Lemma projectProvided_nonempty (key : string) :
  key <> EmptyString -> projectProvided (Some key) = true.
Proof.
  destruct key; [congruence | reflexivity].
Qed.

Lemma progress_update_polls_only (url : string) (response : JsValue) :
  Forall (polls_only url) (progress_update response).
Proof.
  unfold progress_update. destruct (truthy _); repeat constructor.
Qed.

Lemma attempt_polls_only (w : World) (url : string) (ms : Z) (s : State) :
  exists l, trace (snd (attempt w url ms s)) = trace s ++ l /\ Forall (polls_only url) l.
Proof.
  destruct (on_checkCanceled w (checks s)) as [e|] eqn:Hc.
  - rewrite (attempt_canceled _ _ _ _ e Hc). eexists. split; [reflexivity|].
    repeat constructor.
  - rewrite attempt_unfold by exact Hc. cbv zeta.
    assert (Hreq : Forall (polls_only url)
                     ([EvCheckCanceled] ++ [EvDebug (SendingGet url)]
                        ++ [EvRequest "GET" url JsUndefined]))
      by (repeat constructor).
    destruct (observe _) as [e | [[response st] message]].
    + eexists. split; [cbn [snd trace]; rewrite <- app_assoc; reflexivity | exact Hreq].
    + assert (Hst : Forall (polls_only url)
                      (([EvCheckCanceled] ++ [EvDebug (SendingGet url)]
                          ++ [EvRequest "GET" url JsUndefined])
                         ++ [EvDebug (ReceivedStatus st)]))
        by (repeat constructor).
      destruct (is_number st 200); [|destruct (is_number st 202);
                                     [destruct (nullish response)|destruct (truthy st)]];
        cbn [snd trace checks sent].
      1,2,4,5: eexists; (split; [rewrite <- !app_assoc; reflexivity | exact Hst]).
      exists (((([EvCheckCanceled] ++ [EvDebug (SendingGet url)]
                   ++ [EvRequest "GET" url JsUndefined])
                  ++ [EvDebug (ReceivedStatus st)])
                 ++ progress_update response) ++ [EvDelay ms]).
      split; [now rewrite <- !app_assoc|].
      apply Forall_app. split; [|repeat constructor].
      apply Forall_app. split; [exact Hst|apply progress_update_polls_only].
Qed.

Lemma poll_polls_only (w : World) (url : string) (ms : Z) :
  forall (n : nat) (s : State),
  exists l, trace (snd (poll w n url ms s)) = trace s ++ l /\ Forall (polls_only url) l.
Proof.
  induction n as [|n IH]; intros s.
  - exists []. split; [now rewrite app_nil_r | constructor].
  - rewrite poll_S.
    destruct (attempt_polls_only w url ms s) as [l [Hl Hall]].
    destruct (attempt w url ms s) as [[[v|]|e] s']; cbn [snd] in *.
    1,3: exists l; split; assumption.
    destruct (IH s') as [l' [Hl' Hall']].
    exists (l ++ l'). split; [now rewrite Hl', Hl, app_assoc|].
    apply Forall_app. split; assumption.
Qed.

Lemma polls_only_submit_or_poll (projectKey : option string) (scanId : JsValue) (e : Event) :
  polls_only (scanGraphUrl scanId (negb (projectProvided projectKey))) e ->
  submit_or_poll projectKey e.
Proof.
  destruct e; cbn; auto. intros [-> ->]. right. split; [reflexivity|]. now exists scanId.
Qed.

Lemma graph_requests (w : World) (request : JsValue) (projectKey : option string)
      (ms : option Z) :
  Forall (submit_or_poll projectKey) (trace (snd (graph w request projectKey ms initial))).
Proof.
  destruct (truthy request) eqn:Ht.
  2:{ rewrite falsy_request_skips_network_aux by exact Ht. repeat constructor. }
  assert (Hsub : Forall (submit_or_poll projectKey) (submit_events request projectKey)).
  { repeat constructor. }
  destruct (on_checkCanceled w 0) as [e|] eqn:Hc.
  { unfold graph, finally. rewrite Ht. cbn [negb].
    unfold bind, debug, emit, checkCanceled. cbn [initial checks sent trace].
    rewrite Hc. cbn. repeat constructor. }
  destruct (settled (on_doAuthRequest w 0)) as [response|reason] eqn:Hres.
  2:{ unfold graph, finally. rewrite Ht. cbn [negb].
      unfold bind, debug, emit, checkCanceled, doAuthRequest, await.
      cbn [initial checks sent trace]. rewrite Hc. cbn -[submitUrl]. rewrite Hres.
      cbn -[submitUrl]. repeat constructor. }
  destruct (nullish response) eqn:Hn.
  { unfold graph, finally. rewrite Ht. cbn [negb].
    unfold bind, debug, emit, checkCanceled, doAuthRequest, await, member.
    cbn [initial checks sent trace]. rewrite Hc. cbn -[submitUrl]. rewrite Hres.
    unfold ret at 1. rewrite Hn.
    cbn -[submitUrl]. repeat constructor. }
  rewrite (graph_submitted w request projectKey ms initial response Ht Hc Hres Hn).
  cbv zeta. cbn [snd trace]. unfold getScanGraphResults.
  match goal with
  | |- context [poll w ?n ?u ?m ?s0] =>
      destruct (poll_polls_only w u m n s0) as [l [Hl Hall]]
  end.
  rewrite Hl. cbn [trace initial app].
  apply Forall_app. split; [|repeat constructor].
  apply Forall_app. split; [exact Hsub|].
  eapply Forall_impl; [|exact Hall]. apply polls_only_submit_or_poll.
Qed.

(** C6. With a non-empty [projectKey] the submit URL carries [?project=<key>]
    and every poll URL carries [include_vulnerabilities=false]; with no
    [projectKey], or an empty one, the submit URL is the bare endpoint and every
    poll URL carries [include_vulnerabilities=true]. *)
Theorem urls_follow_project_key :
  forall (w : World) (request : JsValue) (projectKey : option string) (ms : option Z)
         (m u : string) (d : JsValue),
    In (EvRequest m u d) (trace (snd (graph w request projectKey ms initial))) ->
    (forall key : string,
        projectKey = Some key -> key <> EmptyString ->
        (m = "POST" /\ u = ("api/v1/scan/graph?project=" ++ key)%string) \/
        (m = "GET" /\ includes "include_vulnerabilities=false" u = true)) /\
    (projectKey = None \/ projectKey = Some EmptyString ->
     (m = "POST" /\ u = "api/v1/scan/graph" /\ includes "project=" u = false) \/
     (m = "GET" /\ includes "include_vulnerabilities=true" u = true)).
Proof.
  intros w request projectKey ms m u d Hin.
  pose proof (graph_requests w request projectKey ms) as Hall.
  rewrite Forall_forall in Hall. specialize (Hall _ Hin). cbn in Hall.
  split.
  - intros key -> Hkey.
    unfold submitUrl in Hall. rewrite (projectProvided_nonempty key Hkey) in Hall.
    destruct Hall as [[-> ->] | [-> [scanId ->]]]; [left | right]; split; try reflexivity.
    apply (scanGraphUrl_flag scanId false).
  - intros Hkey.
    assert (Hp : projectProvided projectKey = false) by (destruct Hkey; subst; reflexivity).
    unfold submitUrl in Hall. rewrite Hp in Hall.
    destruct Hall as [[-> ->] | [-> [scanId ->]]]; [left | right]; repeat split.
    apply (scanGraphUrl_flag scanId true).
Qed.

Lemma urls_follow_project_key_witness :
  (forall key : string,
      Some "proj" = Some key -> key <> EmptyString ->
      ("GET" = "POST" /\ poll_false = ("api/v1/scan/graph?project=" ++ key)%string) \/
      ("GET" = "GET" /\ includes "include_vulnerabilities=false" poll_false = true)) /\
  (Some "proj" = None \/ Some "proj" = Some EmptyString ->
   ("GET" = "POST" /\ poll_false = "api/v1/scan/graph"
    /\ includes "project=" poll_false = false) \/
   ("GET" = "GET" /\ includes "include_vulnerabilities=true" poll_false = true)).
Proof.
  apply (urls_follow_project_key scoped_scan a_request (Some "proj") (Some 10%Z)
           "GET" poll_false JsUndefined).
  vm_compute. do 6 right. left. reflexivity.
Defined.

(** ** What a run is made of *)

Lemma requests_app (a b : list Event) : requests (a ++ b) = requests a ++ requests b.
Proof. apply filter_app. Qed.

Lemma delays_app (a b : list Event) : delays (a ++ b) = delays a ++ delays b.
Proof. apply flat_map_app. Qed.

Lemma sink_writes_app (a b : list Event) :
  sink_writes (a ++ b) = sink_writes a ++ sink_writes b.
Proof. apply flat_map_app. Qed.

Lemma progress_update_truthy (response : JsValue) :
  Forall (fun p => truthy p = true) (sink_writes (progress_update response))
  /\ List.length (sink_writes (progress_update response)) <= 1
  /\ requests (progress_update response) = []
  /\ delays (progress_update response) = [].
Proof.
  unfold progress_update.
  destruct (truthy (prop response "progress_percentage")) eqn:Ht; cbn;
    repeat split; auto.
Qed.

(** One iteration: a check, at most one request, and a delay exactly when the
    iteration runs to its end. *)
Lemma attempt_shape (w : World) (url : string) (ms : Z) (s : State) :
  exists (l : list Event) (g : nat),
    trace (snd (attempt w url ms s)) = trace s ++ l
    /\ checks (snd (attempt w url ms s)) = S (checks s)
    /\ sent (snd (attempt w url ms s)) = sent s + g
    /\ requests l = repeat (poll_request url) g
    /\ Forall (fun p => truthy p = true) (sink_writes l)
    /\ match fst (attempt w url ms s) with
       | Normal None => g = 1 /\ delays l = [ms] /\ List.length (sink_writes l) <= 1
       | _ => g <= 1 /\ delays l = [] /\ sink_writes l = []
       end.
Proof.
  destruct (on_checkCanceled w (checks s)) as [e|] eqn:Hc.
  - rewrite (attempt_canceled _ _ _ _ e Hc). exists [EvCheckCanceled], 0.
    cbn. rewrite Nat.add_0_r. repeat split; auto.
  - rewrite attempt_unfold by exact Hc. cbv zeta.
    destruct (observe _) as [e | [[response st] message]].
    { exists ([EvCheckCanceled] ++ [EvDebug (SendingGet url)] ++ [poll_request url]), 1.
      cbn. rewrite <- app_assoc, Nat.add_1_r. repeat split; auto. }
    destruct (is_number st 200); [|destruct (is_number st 202);
                                   [destruct (nullish response)|destruct (truthy st)]].
    1,2,4,5:
      exists (([EvCheckCanceled] ++ [EvDebug (SendingGet url)] ++ [poll_request url])
                ++ [EvDebug (ReceivedStatus st)]), 1;
      cbn; rewrite <- !app_assoc, Nat.add_1_r; repeat split; auto.
    destruct (progress_update_truthy response) as [Ht [Hlen [Hreq Hdel]]].
    exists (((([EvCheckCanceled] ++ [EvDebug (SendingGet url)] ++ [poll_request url])
                ++ [EvDebug (ReceivedStatus st)])
               ++ progress_update response) ++ [EvDelay ms]), 1.
    cbn [fst snd trace checks sent].
    rewrite !requests_app, !delays_app, !sink_writes_app, Hreq, Hdel.
    cbn. rewrite !app_nil_r, <- !app_assoc, Nat.add_1_r.
    repeat split; auto.
Qed.

Lemma poll_shape (w : World) (url : string) (ms : Z) :
  forall (n : nat) (s : State), polled url ms n s (snd (poll w n url ms s)).
Proof.
  induction n as [|n IH]; intros s.
  - exists [], 0, 0, 0. cbn. rewrite app_nil_r, !Nat.add_0_r. repeat split; auto.
  - rewrite poll_S.
    destruct (attempt_shape w url ms s) as [l [g [Ht [Hc [Hs [Hr [Hp Hk]]]]]]].
    destruct (attempt w url ms s) as [[[v|]|e] s1]; cbn [fst snd] in *.
    + destruct Hk as [Hg [Hd Hw]].
      exists l, 1, g, 0. rewrite Hw, Hd, Hc. cbn. repeat split; auto; lia.
    + destruct Hk as [-> [Hd Hw]].
      destruct (IH s1) as [l' [c' [g' [d' H]]]].
      destruct H as [Ht' [Hc' [Hs' [Hcg [Hcn [Hr' [Hd' [Hdg [Hp' Hw']]]]]]]]].
      exists (l ++ l'), (S c'), (S g'), (S d').
      rewrite Ht', Ht, Hc', Hc, Hs', Hs, requests_app, delays_app, sink_writes_app.
      rewrite Hr, Hr', Hd, Hd', length_app. cbn.
      repeat split; try lia.
      * now rewrite app_assoc.
      * apply Forall_app. split; assumption.
    + destruct Hk as [Hg [Hd Hw]].
      exists l, 1, g, 0. rewrite Hw, Hd, Hc. cbn. repeat split; auto; lia.
Qed.

(** ** The ways out of [graph] before any poll *)

Lemma graph_canceled_aux (w : World) (request : JsValue) (projectKey : option string)
      (ms : option Z) (s : State) (e : JsValue) :
  truthy request = true ->
  on_checkCanceled w (checks s) = Some e ->
  graph w request projectKey ms s =
    (Throw (Thrown e),
     {| checks := S (checks s); sent := sent s;
        trace := trace s ++ [EvDebug SendingPost; EvDebug (Data request); EvCheckCanceled;
                             EvSetPercentage (JsNum 100)] |}).
Proof.
  intros Ht Hc. unfold graph, finally. rewrite Ht. cbn [negb].
  unfold bind, debug, setPercentage, emit, checkCanceled.
  cbn [checks sent trace]. rewrite Hc. cbn [checks sent trace].
  rewrite <- !app_assoc. reflexivity.
Qed.

Lemma graph_rejected_aux (w : World) (request : JsValue) (projectKey : option string)
      (ms : option Z) (s : State) (reason : JsValue) :
  truthy request = true ->
  on_checkCanceled w (checks s) = None ->
  settled (on_doAuthRequest w (sent s)) = Reject reason ->
  graph w request projectKey ms s =
    (Throw (Thrown reason),
     {| checks := S (checks s); sent := S (sent s);
        trace := trace s ++ submit_events request projectKey
                   ++ [EvSetPercentage (JsNum 100)] |}).
Proof.
  intros Ht Hc Hrej. unfold graph, finally. rewrite Ht. cbn [negb].
  unfold bind, debug, setPercentage, emit, checkCanceled, doAuthRequest, await.
  cbn [checks sent trace]. rewrite Hc. cbn -[submitUrl]. rewrite Hrej.
  cbn -[submitUrl]. unfold submit_events. rewrite <- !app_assoc. reflexivity.
Qed.

Lemma graph_nullish_aux (w : World) (request : JsValue) (projectKey : option string)
      (ms : option Z) (s : State) (response : JsValue) :
  truthy request = true ->
  on_checkCanceled w (checks s) = None ->
  settled (on_doAuthRequest w (sent s)) = Resolve response ->
  nullish response = true ->
  graph w request projectKey ms s =
    (Throw (TypeError response "scan_id"),
     {| checks := S (checks s); sent := S (sent s);
        trace := trace s ++ submit_events request projectKey
                   ++ [EvSetPercentage (JsNum 100)] |}).
Proof.
  intros Ht Hc Hres Hn. unfold graph, finally. rewrite Ht. cbn [negb].
  unfold bind, debug, setPercentage, emit, checkCanceled, doAuthRequest, await, member.
  cbn [checks sent trace]. rewrite Hc. cbn -[submitUrl]. rewrite Hres.
  unfold ret at 1. rewrite Hn.
  cbn -[submitUrl]. unfold submit_events. rewrite <- !app_assoc. reflexivity.
Qed.

(** The ways through [graph], from the start of a call: the early return, a
    failed check, a failed submit, and the polling loop. *)
Lemma graph_paths (w : World) (request : JsValue) (projectKey : option string)
      (ms : option Z) :
  let url := scanGraphUrl (prop (resolved (on_doAuthRequest w 0)) "scan_id")
                          (negb (projectProvided projectKey)) in
  let s1 := {| checks := 1; sent := 1; trace := submit_events request projectKey |} in
  (truthy request = false /\
   graph w request projectKey ms initial =
     (Normal (JsObj []),
      {| checks := 0; sent := 0; trace := [EvSetPercentage (JsNum 100)] |}))
  \/ (truthy request = true /\ exists e,
       on_checkCanceled w 0 = Some e /\
       graph w request projectKey ms initial =
         (Throw (Thrown e),
          {| checks := 1; sent := 0;
             trace := [EvDebug SendingPost; EvDebug (Data request); EvCheckCanceled;
                       EvSetPercentage (JsNum 100)] |}))
  \/ (truthy request = true /\ on_checkCanceled w 0 = None /\ exists e,
       graph w request projectKey ms initial =
         (Throw e,
          {| checks := 1; sent := 1;
             trace := submit_events request projectKey
                        ++ [EvSetPercentage (JsNum 100)] |}))
  \/ (truthy request = true /\
      on_checkCanceled w 0 = None /\
      nullish (resolved (on_doAuthRequest w 0)) = false /\
      graph w request projectKey ms initial =
        (fst (poll w MAX_ATTEMPTS url (or_default ms) s1),
         {| checks := checks (snd (poll w MAX_ATTEMPTS url (or_default ms) s1));
            sent := sent (snd (poll w MAX_ATTEMPTS url (or_default ms) s1));
            trace := trace (snd (poll w MAX_ATTEMPTS url (or_default ms) s1))
                       ++ [EvSetPercentage (JsNum 100)] |})).
Proof.
  intros url s1. subst url s1.
  destruct (truthy request) eqn:Ht.
  2:{ left. split; [reflexivity|]. now apply falsy_request_skips_network_aux. }
  right.
  destruct (on_checkCanceled w 0) as [e|] eqn:Hc.
  { left. split; [reflexivity|]. exists e. split; [reflexivity|].
    now apply (graph_canceled_aux w request projectKey ms initial e). }
  right. unfold resolved.
  destruct (settled (on_doAuthRequest w 0)) as [response|reason] eqn:Hres.
  2:{ left. split; [reflexivity|]. split; [reflexivity|]. exists (Thrown reason).
      now apply (graph_rejected_aux w request projectKey ms initial reason). }
  destruct (nullish response) eqn:Hn.
  { left. split; [reflexivity|]. split; [reflexivity|].
    exists (TypeError response "scan_id").
    now apply (graph_nullish_aux w request projectKey ms initial response). }
  right. repeat split; try reflexivity.
  rewrite (graph_submitted w request projectKey ms initial response Ht Hc Hres Hn).
  reflexivity.
Qed.

(** ** Reading a result backwards *)

Lemma attempt_returns (w : World) (url : string) (ms : Z) (s s' : State) (v : JsValue) :
  attempt w url ms s = (Normal (Some v), s') ->
  on_checkCanceled w (checks s) = None
  /\ (exists st message,
        observe (on_doAuthRequest w (sent s)) = inr (v, st, message)
        /\ is_number st 200 = true)
  /\ checks s' = S (checks s) /\ sent s' = S (sent s).
Proof.
  destruct (on_checkCanceled w (checks s)) as [e|] eqn:Hc.
  { rewrite (attempt_canceled _ _ _ _ e Hc). discriminate. }
  rewrite attempt_unfold by exact Hc. cbv zeta.
  destruct (observe _) as [e | [[response st] message]]; [discriminate|].
  destruct (is_number st 200) eqn:H200.
  - intros H. inversion H. subst. cbn. repeat split. now exists st, message.
  - destruct (is_number st 202); [destruct (nullish response)|destruct (truthy st)];
      discriminate.
Qed.

Lemma attempt_continues (w : World) (url : string) (ms : Z) (s : State) :
  fst (attempt w url ms s) = Normal None -> still_running w (checks s) (sent s).
Proof.
  unfold still_running, in_progress.
  destruct (on_checkCanceled w (checks s)) as [e|] eqn:Hc.
  { rewrite (attempt_canceled _ _ _ _ e Hc). discriminate. }
  rewrite attempt_unfold by exact Hc. cbv zeta. unfold observe.
  destruct (settled _) as [response|reason].
  - destruct (is_number (captured _) 200); [discriminate|].
    destruct (is_number (captured _) 202).
    + destruct (nullish response); [discriminate|]. now split.
    + destruct (truthy _); discriminate.
  - destruct (nullish reason); [discriminate|].
    destruct (is_number _ 200); [discriminate|].
    destruct (is_number _ 202); [discriminate|].
    destruct (truthy _); discriminate.
Qed.

(** No single iteration throws the timeout error. *)
Lemma attempt_never_times_out (w : World) (url : string) (ms : Z) (s : State) :
  fst (attempt w url ms s) <> Throw (Error "Xray get scan graph exceeded the timeout.").
Proof.
  destruct (on_checkCanceled w (checks s)) as [e|] eqn:Hc.
  { rewrite (attempt_canceled _ _ _ _ e Hc). discriminate. }
  rewrite attempt_unfold by exact Hc. cbv zeta.
  destruct (observe (on_doAuthRequest w (sent s)))
    as [e | [[response st] message]] eqn:Ho.
  { unfold observe in Ho.
    destruct (settled (on_doAuthRequest w (sent s))) as [response|reason];
      [discriminate|].
    destruct (nullish reason); [|discriminate].
    inversion Ho. discriminate. }
  destruct (is_number st 200); [discriminate|].
  destruct (is_number st 202); [destruct (nullish response); discriminate|].
  destruct (truthy st); cbn; discriminate.
Qed.

Lemma poll_returns (w : World) (url : string) (ms : Z) :
  forall (n : nat) (s s' : State) (v : JsValue),
    poll w n url ms s = (Normal v, s') ->
    exists k st message,
      k < n
      /\ (forall j, j < k -> still_running w (checks s + j) (sent s + j))
      /\ on_checkCanceled w (checks s + k) = None
      /\ observe (on_doAuthRequest w (sent s + k)) = inr (v, st, message)
      /\ is_number st 200 = true
      /\ sent s' = sent s + k + 1.
Proof.
  induction n as [|n IH]; intros s s' v Hp; [discriminate|].
  rewrite poll_S in Hp.
  destruct (attempt w url ms s) as [[[v0|]|e] s1] eqn:Ha; [| |discriminate].
  - inversion Hp. subst.
    destruct (attempt_returns _ _ _ _ _ _ Ha) as [Hc [[st [message [Ho H200]]] [_ Hs]]].
    exists 0, st, message. rewrite !Nat.add_0_r.
    repeat split; auto; lia.
  - assert (Hrun : still_running w (checks s) (sent s))
      by (apply (attempt_continues w url ms); now rewrite Ha).
    rewrite (attempt_in_progress w url ms s Hrun) in Ha. inversion Ha. subst s1.
    destruct (IH _ _ _ Hp) as [k [st [message [Hk [Hrun' [Hc [Ho [H200 Hs]]]]]]]].
    cbn [checks sent] in *.
    exists (S k), st, message. rewrite <- !Nat.add_succ_comm.
    split; [lia|]. split.
    { intros [|j] Hj; [now rewrite !Nat.add_0_r|].
      rewrite <- !Nat.add_succ_comm. apply Hrun'. lia. }
    repeat split; auto; lia.
Qed.

Lemma poll_times_out (w : World) (url : string) (ms : Z) :
  forall (n : nat) (s : State),
    fst (poll w n url ms s) = Throw (Error "Xray get scan graph exceeded the timeout.") ->
    forall j, j < n -> still_running w (checks s + j) (sent s + j).
Proof.
  induction n as [|n IH]; intros s Hp j Hj; [lia|].
  rewrite poll_S in Hp.
  pose proof (attempt_never_times_out w url ms s) as Hne.
  pose proof (attempt_continues w url ms s) as Hcont.
  destruct (attempt w url ms s) as [[[v0|]|e] s1] eqn:Ha; cbn [fst] in *;
    [discriminate| |exfalso; apply Hne; inversion Hp; reflexivity].
  specialize (Hcont eq_refl).
  rewrite (attempt_in_progress w url ms s Hcont) in Ha. inversion Ha. subst s1.
  destruct j as [|j]; [now rewrite !Nat.add_0_r|].
  rewrite <- !Nat.add_succ_comm. apply (IH _ Hp). lia.
Qed.

Lemma poll_canceled (w : World) (url : string) (ms : Z) :
  forall (n : nat) (s : State) (c : nat) (e : JsValue),
    checks s <= c < checks (snd (poll w n url ms s)) ->
    on_checkCanceled w c = Some e ->
    fst (poll w n url ms s) = Throw (Thrown e)
    /\ checks (snd (poll w n url ms s)) = S c
    /\ sent (snd (poll w n url ms s)) + checks s = sent s + c.
Proof.
  induction n as [|n IH]; intros s c e Hc He; [cbn in Hc; lia|].
  rewrite poll_S in *.
  destruct (on_checkCanceled w (checks s)) as [e0|] eqn:Hc0.
  - rewrite (attempt_canceled _ _ _ _ e0 Hc0) in *. cbn [fst snd checks sent] in *.
    assert (c = checks s) by lia. subst c. rewrite Hc0 in He. inversion He. subst.
    repeat split; lia.
  - assert (Hne : c <> checks s) by (intros ->; congruence).
    destruct (attempt_shape w url ms s) as [l [g [_ [Hck [Hs [_ [_ Hk]]]]]]].
    destruct (attempt w url ms s) as [[[v|]|e1] s1]; cbn [fst snd] in *; try lia.
    destruct Hk as [-> _].
    destruct (IH s1 c e) as [Hr [Hc' Hs']]; [lia | exact He |].
    repeat split; auto; lia.
Qed.

(** ** Leaving before the first poll *)

(** X1. A [checkCanceled] that throws in front of the submit request ends the
    call with what it threw: the HTTP client is never called, and the progress
    sink is set to 100. *)
Theorem cancel_before_submit_sends_nothing :
  forall (w : World) (request : JsValue) (projectKey : option string) (ms : option Z)
         (s : State) (e : JsValue),
    truthy request = true ->
    on_checkCanceled w (checks s) = Some e ->
    graph w request projectKey ms s =
      (Throw (Thrown e),
       {| checks := S (checks s); sent := sent s;
          trace := trace s ++ [EvDebug SendingPost; EvDebug (Data request);
                               EvCheckCanceled; EvSetPercentage (JsNum 100)] |}).
Proof.
  intros w request projectKey ms s e Ht Hc. now apply graph_canceled_aux.
Qed.

Lemma cancel_before_submit_sends_nothing_witness :
  graph canceled_at_once a_request (Some "proj") None initial =
    (Throw (Thrown (JsStr "canceled")),
     {| checks := 1; sent := 0;
        trace := [EvDebug SendingPost; EvDebug (Data a_request);
                  EvCheckCanceled; EvSetPercentage (JsNum 100)] |}).
Proof.
  apply (cancel_before_submit_sends_nothing canceled_at_once a_request (Some "proj") None
           initial (JsStr "canceled")); reflexivity.
Defined.

(** X2. When the submit request is rejected, [graph] throws the rejection
    reason itself; the submit is the only request of the call, no poll follows,
    and the progress sink is set to 100. *)
Theorem rejected_submit_is_rethrown :
  forall (w : World) (request : JsValue) (projectKey : option string) (ms : option Z)
         (s : State) (reason : JsValue),
    truthy request = true ->
    on_checkCanceled w (checks s) = None ->
    settled (on_doAuthRequest w (sent s)) = Reject reason ->
    graph w request projectKey ms s =
      (Throw (Thrown reason),
       {| checks := S (checks s); sent := S (sent s);
          trace := trace s ++ submit_events request projectKey
                     ++ [EvSetPercentage (JsNum 100)] |}).
Proof.
  intros w request projectKey ms s reason Ht Hc Hrej. now apply graph_rejected_aux.
Qed.

Lemma rejected_submit_is_rethrown_witness :
  graph submit_refused a_request None None initial =
    (Throw (Thrown (http_error 401 "Unauthorized")),
     {| checks := 1; sent := 1;
        trace := [EvDebug SendingPost; EvDebug (Data a_request); EvCheckCanceled;
                  EvRequest "POST" "api/v1/scan/graph" a_request;
                  EvSetPercentage (JsNum 100)] |}).
Proof.
  apply (rejected_submit_is_rethrown submit_refused a_request None None initial
           (http_error 401 "Unauthorized")); reflexivity.
Defined.

(** X3. When the submit request resolves with [null] or [undefined], reading
    [scan_id] from it throws a TypeError: the call fails after its one request,
    without polling, and the progress sink is set to 100. *)
Theorem null_submit_response_fails :
  forall (w : World) (request : JsValue) (projectKey : option string) (ms : option Z)
         (s : State) (response : JsValue),
    truthy request = true ->
    on_checkCanceled w (checks s) = None ->
    settled (on_doAuthRequest w (sent s)) = Resolve response ->
    nullish response = true ->
    graph w request projectKey ms s =
      (Throw (TypeError response "scan_id"),
       {| checks := S (checks s); sent := S (sent s);
          trace := trace s ++ submit_events request projectKey
                     ++ [EvSetPercentage (JsNum 100)] |}).
Proof.
  intros w request projectKey ms s response Ht Hc Hres Hn. now apply graph_nullish_aux.
Qed.

Lemma null_submit_response_fails_witness :
  graph submit_answers_null a_request None None initial =
    (Throw (TypeError JsNull "scan_id"),
     {| checks := 1; sent := 1;
        trace := [EvDebug SendingPost; EvDebug (Data a_request); EvCheckCanceled;
                  EvRequest "POST" "api/v1/scan/graph" a_request;
                  EvSetPercentage (JsNum 100)] |}).
Proof.
  apply (null_submit_response_fails submit_answers_null a_request None None initial JsNull);
    reflexivity.
Defined.

(** ** What every call keeps to *)

(** X4. The requests of a call, whatever the world does, are none at all, or
    the one submit request, with the caller's request as its body, followed by
    at most sixty polls that all go to the URL built from the [scan_id] of the
    submit response; the request counter is their number. *)
Theorem requests_are_one_submit_then_polls :
  forall (w : World) (request : JsValue) (projectKey : option string) (ms : option Z),
    let s' := snd (graph w request projectKey ms initial) in
    sent s' = List.length (requests (trace s'))
    /\ (requests (trace s') = []
        \/ exists k : nat,
            k <= 60
            /\ requests (trace s') =
                 submit_request request projectKey
                   :: repeat (poll_request
                                (scanGraphUrl (prop (resolved (on_doAuthRequest w 0)) "scan_id")
                                              (negb (projectProvided projectKey))))
                             k).
Proof.
  intros w request projectKey ms.
  destruct (graph_paths w request projectKey ms)
    as [[_ ->] | [[_ [e [_ ->]]] | [[_ [_ [e ->]]] | [_ [_ [_ ->]]]]]]; cbv zeta.
  - split; [reflexivity | left; reflexivity].
  - split; [reflexivity | left; reflexivity].
  - split; [reflexivity|]. right. exists 0. split; [lia | reflexivity].
  - match goal with
    | |- context [poll w ?n ?u ?m ?s0] =>
        destruct (poll_shape w u m n s0) as [l [c [g [d H]]]]
    end.
    destruct H as [Ht [_ [Hs [Hcg [Hcn [Hr _]]]]]].
    cbn [snd trace sent] in *. rewrite Ht, Hs, !requests_app, Hr.
    cbn. rewrite app_nil_r, repeat_length. split; [reflexivity|].
    right. exists g. split; [unfold MAX_ATTEMPTS in Hcn; lia | reflexivity].
Qed.

Lemma discipline_app (l1 l2 : list Event) :
  forall armed : bool,
    discipline armed (l1 ++ l2) =
      match discipline armed l1 with
      | Some armed' => discipline armed' l2
      | None => None
      end.
Proof.
  induction l1 as [|e l1 IH]; intros armed; [reflexivity|].
  destruct e, armed; cbn; auto.
Qed.

(** One iteration, read with the flag down: the check comes first, the request
    after it, and an iteration that runs to its end leaves the flag down. *)
Lemma attempt_discipline (w : World) (url : string) (ms : Z) (s : State) :
  exists (l : list Event) (armed : bool),
    trace (snd (attempt w url ms s)) = trace s ++ l
    /\ discipline false l = Some armed
    /\ List.length (filter is_check l) = 1
    /\ (fst (attempt w url ms s) = Normal None -> armed = false).
Proof.
  destruct (on_checkCanceled w (checks s)) as [e|] eqn:Hc.
  - rewrite (attempt_canceled _ _ _ _ e Hc). exists [EvCheckCanceled], true.
    repeat split. discriminate.
  - rewrite attempt_unfold by exact Hc. cbv zeta.
    destruct (observe _) as [e | [[response st] message]].
    { exists ([EvCheckCanceled] ++ [EvDebug (SendingGet url)] ++ [poll_request url]), false.
      cbn. rewrite <- app_assoc. repeat split. }
    destruct (is_number st 200); [|destruct (is_number st 202);
                                   [destruct (nullish response)|destruct (truthy st)]].
    1,2,4,5:
      exists (([EvCheckCanceled] ++ [EvDebug (SendingGet url)] ++ [poll_request url])
                ++ [EvDebug (ReceivedStatus st)]), false;
      cbn; rewrite <- !app_assoc; repeat split.
    exists (((([EvCheckCanceled] ++ [EvDebug (SendingGet url)] ++ [poll_request url])
                ++ [EvDebug (ReceivedStatus st)])
               ++ progress_update response) ++ [EvDelay ms]), false.
    cbn [fst snd trace]. rewrite <- !app_assoc. unfold progress_update.
    destruct (truthy (prop response "progress_percentage")); repeat split.
Qed.

Lemma poll_discipline (w : World) (url : string) (ms : Z) :
  forall (n : nat) (s : State),
  exists (l : list Event) (armed : bool),
    trace (snd (poll w n url ms s)) = trace s ++ l
    /\ discipline false l = Some armed
    /\ List.length (filter is_check l) <= n.
Proof.
  induction n as [|n IH]; intros s.
  - exists [], false. cbn. rewrite app_nil_r. repeat split. lia.
  - rewrite poll_S.
    destruct (attempt_discipline w url ms s) as [l [a [Ht [Hd [Hn Ha]]]]].
    destruct (attempt w url ms s) as [[[v|]|e] s1]; cbn [fst snd] in *.
    1,3: exists l, a; repeat split; auto; lia.
    rewrite (Ha eq_refl) in Hd.
    destruct (IH s1) as [l' [a' [Ht' [Hd' Hn']]]].
    exists (l ++ l'), a'. rewrite Ht', Ht, discipline_app, Hd, filter_app, length_app.
    repeat split; auto; [now rewrite app_assoc | lia].
Qed.

(** X5. In the trace of every call each request has its own [checkCanceled]
    call in front of it, made after the request before, and a check is never
    followed by another check without a request in between (so at most one
    check, the last, has no request after it); there are at most 61 checks. *)
Theorem calls_are_bounded :
  forall (w : World) (request : JsValue) (projectKey : option string) (ms : option Z),
    let t := trace (snd (graph w request projectKey ms initial)) in
    (exists armed : bool, discipline false t = Some armed)
    /\ List.length (filter is_check t) <= 61.
Proof.
  intros w request projectKey ms.
  destruct (graph_paths w request projectKey ms)
    as [[_ ->] | [[_ [e [_ ->]]] | [[_ [_ [e ->]]] | [_ [_ [_ ->]]]]]]; cbv zeta;
    cbn [snd trace].
  - split; [now exists false | cbn; lia].
  - split; [now exists true | cbn; lia].
  - split; [now exists false | cbn; lia].
  - match goal with
    | |- context [poll w ?n ?u ?m ?s0] =>
        destruct (poll_discipline w u m n s0) as [l [a [Ht [Hd Hn]]]]
    end.
    rewrite Ht. cbn [trace]. rewrite !discipline_app, !filter_app, !length_app.
    cbn [submit_events discipline]. rewrite Hd.
    split; [exists a; now destruct a|]. unfold MAX_ATTEMPTS in Hn. cbn. lia.
Qed.

(** X6. Every delay of a call lasts the interval the caller gave, or 5000 ms
    when none was given; there are at most sixty delays, and never more delays
    than polls. *)
Theorem every_delay_lasts_the_interval :
  forall (w : World) (request : JsValue) (projectKey : option string) (ms : option Z),
    let s' := snd (graph w request projectKey ms initial) in
    exists d : nat,
      delays (trace s') =
        repeat (match ms with Some interval => interval | None => 5000%Z end) d
      /\ d <= 60 /\ d <= sent s' - 1.
Proof.
  intros w request projectKey ms.
  change (match ms with Some interval => interval | None => 5000%Z end)
    with (or_default ms).
  destruct (graph_paths w request projectKey ms)
    as [[_ ->] | [[_ [e [_ ->]]] | [[_ [_ [e ->]]] | [_ [_ [_ ->]]]]]]; cbv zeta;
    cbn [snd trace sent].
  1-3: exists 0; repeat split; lia.
  match goal with
  | |- context [poll w ?n ?u ?m ?s0] =>
      destruct (poll_shape w u m n s0) as [l [c [g [d H]]]]
  end.
  destruct H as [Ht [_ [Hs [Hcg [Hcn [_ [Hd [Hdg _]]]]]]]].
  exists d. rewrite Ht, Hs, !delays_app, Hd. cbn [trace sent].
  unfold MAX_ATTEMPTS in Hcn. cbn. rewrite app_nil_r. repeat split; lia.
Qed.

Lemma iteration_events_read (w : World) (url : string) (ms : Z) (n : nat) :
  sink_writes (iteration_events w url ms n) = forwarded w n
  /\ delays (iteration_events w url ms n) = [ms].
Proof.
  unfold iteration_events, request_events, progress_update, forwarded.
  destruct (truthy (prop (resolved (on_doAuthRequest w n)) "progress_percentage"));
    split; reflexivity.
Qed.

Lemma iterations_read (w : World) (url : string) (ms : Z) :
  forall (k a : nat),
    sink_writes (flat_map (iteration_events w url ms) (seq a k)) =
      flat_map (forwarded w) (seq a k)
    /\ delays (flat_map (iteration_events w url ms) (seq a k)) = repeat ms k.
Proof.
  induction k as [|k IH]; intros a; [split; reflexivity|].
  destruct (IH (S a)) as [Hw Hd].
  destruct (iteration_events_read w url ms a) as [Hw1 Hd1].
  cbn [seq flat_map repeat]. rewrite sink_writes_app, delays_app, Hw, Hd, Hw1, Hd1.
  split; reflexivity.
Qed.

Lemma forwarded_truthy (w : World) (l : list nat) :
  Forall (fun p => truthy p = true) (flat_map (forwarded w) l).
Proof.
  apply Forall_flat_map, Forall_forall. intros n _. unfold forwarded.
  destruct (truthy _) eqn:Ht; repeat constructor. exact Ht.
Qed.

(** The loop is some iterations in progress and then at most one more, which
    neither sleeps nor writes to the sink. *)
Lemma poll_stops (w : World) (url : string) (ms : Z) :
  forall (n : nat) (s : State),
  exists (k : nat) (rest : list Event),
    k <= n
    /\ (forall j, j < k -> still_running w (checks s + j) (sent s + j))
    /\ trace (snd (poll w n url ms s)) =
         trace s ++ flat_map (iteration_events w url ms) (seq (sent s) k) ++ rest
    /\ sink_writes rest = [] /\ delays rest = [].
Proof.
  induction n as [|n IH]; intros s.
  - exists 0, []. cbn. rewrite app_nil_r. repeat split; try lia.
  - rewrite poll_S.
    destruct (attempt_shape w url ms s) as [l [g [Ht [_ [_ [_ [_ Hk]]]]]]].
    pose proof (attempt_continues w url ms s) as Hcont.
    destruct (attempt w url ms s) as [[[v|]|e] s1] eqn:Ha; cbn [fst snd] in *.
    1,3: destruct Hk as [_ [Hd Hw]]; exists 0, l; cbn [seq flat_map app];
         repeat split; auto; lia.
    specialize (Hcont eq_refl).
    rewrite (attempt_in_progress w url ms s Hcont) in Ha. inversion Ha. subst s1.
    destruct (IH {| checks := S (checks s); sent := S (sent s);
                    trace := trace s ++ iteration_events w url ms (sent s) |})
      as [k [rest [Hkn [Hrun [Htr [Hw Hd]]]]]].
    cbn [checks sent trace] in *.
    exists (S k), rest. split; [lia|]. split.
    { intros [|j] Hj; [now rewrite !Nat.add_0_r|].
      rewrite <- !Nat.add_succ_comm. apply Hrun. lia. }
    rewrite Htr. cbn [seq flat_map]. rewrite <- !app_assoc. repeat split; auto.
Qed.

(** X7. What the progress sink is handed in a call is exactly this: for each
    poll that stayed in progress, in order, the [progress_percentage] of its
    response when that is truthy and nothing otherwise, and then 100.  The
    polls in progress are the first [k] of the call, one for each delay; no
    falsy value and no value of the client's own making other than the final
    100 reaches the sink. *)
Theorem sink_sees_truthy_then_100 :
  forall (w : World) (request : JsValue) (projectKey : option string) (ms : option Z),
    let s' := snd (graph w request projectKey ms initial) in
    exists k : nat,
      k <= 60
      /\ (forall j, 1 <= j <= k -> still_running w j j)
      /\ delays (trace s') = repeat (or_default ms) k
      /\ sink_writes (trace s') = flat_map (forwarded w) (seq 1 k) ++ [JsNum 100]
      /\ Forall (fun p => truthy p = true) (flat_map (forwarded w) (seq 1 k)).
Proof.
  intros w request projectKey ms.
  destruct (graph_paths w request projectKey ms)
    as [[_ ->] | [[_ [e [_ ->]]] | [[_ [_ [e ->]]] | [_ [_ [_ ->]]]]]]; cbv zeta;
    cbn [snd trace].
  1-3: exists 0; repeat split; try constructor; lia.
  match goal with
  | |- context [poll w ?n ?u ?m ?s0] =>
      destruct (poll_stops w u m n s0) as [k [rest [Hk [Hrun [Ht [Hw Hd]]]]]];
      destruct (iterations_read w u m k 1) as [Hiw Hid]
  end.
  cbn [checks sent trace] in *.
  exists k. split; [exact Hk|]. split.
  { intros j Hj. specialize (Hrun (j - 1) ltac:(lia)).
    now replace (1 + (j - 1)) with j in Hrun by lia. }
  rewrite Ht, !sink_writes_app, !delays_app, Hiw, Hid, Hw, Hd.
  cbn. rewrite !app_nil_r. repeat split. apply forwarded_truthy.
Qed.

(** ** From the result back to the world *)

(** X8. A call returns normally in two cases only: the request was falsy and
    the result is [{}], or some poll, after polls that all stayed in progress,
    was observed under status 200, and the result is the response of that
    poll, which is the last request of the call. *)
Theorem normal_result_comes_from_a_200 :
  forall (w : World) (request : JsValue) (projectKey : option string) (ms : option Z)
         (v : JsValue),
    fst (graph w request projectKey ms initial) = Normal v ->
    (truthy request = false /\ v = JsObj [])
    \/ (truthy request = true
        /\ exists (k : nat) (status message : JsValue),
            k < 60
            /\ (forall j, 1 <= j <= k -> still_running w j j)
            /\ observe (on_doAuthRequest w (S k)) = inr (v, status, message)
            /\ is_number status 200 = true
            /\ sent (snd (graph w request projectKey ms initial)) = k + 2).
Proof.
  intros w request projectKey ms v.
  destruct (graph_paths w request projectKey ms)
    as [[Hf ->] | [[_ [e [_ ->]]] | [[_ [_ [e ->]]] | [Ht [_ [_ ->]]]]]]; cbv zeta;
    cbn [fst snd sent]; try discriminate.
  - intros H. inversion H. now left.
  - intros H. right. split; [exact Ht|].
    match type of H with
    | fst (poll w ?n ?u ?m ?s0) = _ =>
        destruct (poll w n u m s0) as [r s'] eqn:Hp
    end.
    cbn [fst snd] in *. subst r.
    destruct (poll_returns _ _ _ _ _ _ _ Hp) as [k [st [message H]]].
    destruct H as [Hk [Hrun [_ [Ho [H200 Hs]]]]]. cbn [checks sent] in *.
    exists k, st, message. split; [exact Hk|]. split.
    { intros j Hj. specialize (Hrun (j - 1) ltac:(lia)).
      now replace (1 + (j - 1)) with j in Hrun by lia. }
    repeat split; auto. lia.
Qed.

Lemma normal_result_comes_from_a_200_witness :
  (truthy a_request = false /\ a_result = JsObj [])
  \/ (truthy a_request = true
      /\ exists (k : nat) (status message : JsValue),
          k < 60
          /\ (forall j, 1 <= j <= k -> still_running completes_on_third_poll j j)
          /\ observe (on_doAuthRequest completes_on_third_poll (S k))
             = inr (a_result, status, message)
          /\ is_number status 200 = true
          /\ sent (snd (graph completes_on_third_poll a_request (Some "proj")
                              (Some 10%Z) initial)) = k + 2).
Proof.
  apply (normal_result_comes_from_a_200 completes_on_third_poll a_request (Some "proj")
           (Some 10%Z) a_result).
  reflexivity.
Defined.

(** X9. [getScanGraphResults] throws the timeout error exactly when sixty
    polls in a row stay in progress: no other failure produces that error. *)
Theorem timeout_exactly_when_sixty_in_progress :
  forall (w : World) (scanId : JsValue) (includeVulnerabilities : bool) (ms : Z)
         (s : State),
    fst (getScanGraphResults w scanId includeVulnerabilities ms s) =
      Throw (Error "Xray get scan graph exceeded the timeout.")
    <-> (forall j, j < 60 -> still_running w (checks s + j) (sent s + j)).
Proof.
  intros w scanId incl ms s. unfold getScanGraphResults. split.
  - apply poll_times_out.
  - intros Hrun. rewrite <- (Nat.add_0_r MAX_ATTEMPTS).
    rewrite poll_in_progress by exact Hrun. reflexivity.
Qed.

(** X10. The [validateStatus] callback and the dispatch of the loop agree: once
    a poll has settled with a numeric status, the iteration throws one of the
    two "Received ..." errors exactly when [validateStatus] answers false for
    that status. *)
Theorem validateStatus_agrees_with_dispatch :
  forall (w : World) (url : string) (ms : Z) (s : State)
         (response message : JsValue) (status : Z),
    on_checkCanceled w (checks s) = None ->
    observe (on_doAuthRequest w (sent s)) = inr (response, JsNum status, message) ->
    accepted status = false
    <-> exists text : string, fst (attempt w url ms s) = Throw (Error text).
Proof.
  intros w url ms s response message status Hc Ho.
  rewrite attempt_unfold by exact Hc. rewrite Ho. cbv zeta.
  unfold accepted. cbn [is_number].
  destruct (status =? 200)%Z; [|destruct (status =? 202)%Z]; cbn [orb fst].
  - split; [discriminate | intros [text H]; discriminate H].
  - split; [discriminate|]. intros [text H].
    destruct (nullish response); discriminate H.
  - split; [|reflexivity]. intros _.
    destruct (truthy (JsNum status)); eexists; reflexivity.
Qed.

Lemma validateStatus_agrees_with_dispatch_witness :
  accepted 503 = false
  <-> exists text : string,
        fst (attempt (rejected_with 503) poll_true 10 initial) = Throw (Error text).
Proof.
  apply (validateStatus_agrees_with_dispatch (rejected_with 503) poll_true 10 initial
           JsUndefined (JsStr "Bad body") 503); reflexivity.
Defined.

(** X11. A [checkCanceled] call that throws is the last thing a call does
    apart from the cleanup: whichever check of a call throws, the call ends
    with what that check threw, no check and no request come after it, and
    every check before it was followed by its request. *)
Theorem a_failed_check_ends_the_call :
  forall (w : World) (request : JsValue) (projectKey : option string) (ms : option Z)
         (c : nat) (e : JsValue),
    c < checks (snd (graph w request projectKey ms initial)) ->
    on_checkCanceled w c = Some e ->
    fst (graph w request projectKey ms initial) = Throw (Thrown e)
    /\ checks (snd (graph w request projectKey ms initial)) = S c
    /\ sent (snd (graph w request projectKey ms initial)) = c.
Proof.
  intros w request projectKey ms c e.
  destruct (graph_paths w request projectKey ms)
    as [[_ ->] | [[_ [e0 [Hc0 ->]]] | [[_ [Hc0 [e0 ->]]] | [_ [Hc0 [_ ->]]]]]]; cbv zeta;
    cbn [fst snd checks sent]; intros Hc He.
  - lia.
  - assert (c = 0) by lia. subst c. rewrite Hc0 in He. inversion He. now subst.
  - assert (c = 0) by lia. subst c. congruence.
  - assert (Hne : c <> 0) by (intros ->; congruence).
    match goal with
    | |- context [poll w ?n ?u ?m ?s0] =>
        destruct (poll_canceled w u m n s0 c e) as [Hr [Hk Hs]]
    end; cbn [checks sent] in *; [lia | exact He |].
    repeat split; auto; lia.
Qed.

Lemma a_failed_check_ends_the_call_witness :
  fst (graph canceled_in_front_of_second_poll a_request None (Some 10%Z) initial)
    = Throw (Thrown (JsStr "canceled"))
  /\ checks (snd (graph canceled_in_front_of_second_poll a_request None (Some 10%Z) initial))
     = 3
  /\ sent (snd (graph canceled_in_front_of_second_poll a_request None (Some 10%Z) initial))
     = 2.
Proof.
  apply (a_failed_check_ends_the_call canceled_in_front_of_second_poll a_request None
           (Some 10%Z) 2 (JsStr "canceled")).
  - vm_compute. lia.
  - reflexivity.
Defined.
